(** * Announcement endpoints of the High School Management System API

    A shallow embedding of [src/backend/routers/announcements.py] and the
    properties of its four endpoints (list, create, update, delete).

    Conventions of the embedding:
    - a Python [str] is a [string]; every character stands for one code
      point below 256, so [String.length] is Python's [len];
    - a [datetime.date] is a record of three integers, valid when
      [valid_date] holds (Python only ever builds valid dates);
      [date.today()] is the argument [today] of an endpoint: one request
      sees one day; [date.fromisoformat] is a parameter ([DateParser]);
    - a MongoDB document is a finite map from field names to BSON values,
      a collection is a finite map from [_id] to the remaining fields;
    - the endpoints run in a state-and-exception monad over the two
      collections of [..database]. *)

From Stdlib Require Import ZArith String Ascii List Bool Lia.
From stdpp Require Import base option list strings gmap fin_maps sorting.

Local Open Scope Z_scope.

(** ** Python strings *)

(** [str.isspace] on code points below 256: TAB..CR, FS..US, SPACE,
    NEL (0x85) and NBSP (0xa0). *)
Definition isspace (c : ascii) : bool :=
  let n := Z.of_N (N_of_ascii c) in
  ((9 <=? n) && (n <=? 13)) || ((28 <=? n) && (n <=? 32))
  || (n =? 133) || (n =? 160).

Fixpoint lstrip (s : string) : string :=
  match s with
  | EmptyString => EmptyString
  | String c r => if isspace c then lstrip r else s
  end.

Fixpoint rstrip (s : string) : string :=
  match s with
  | EmptyString => EmptyString
  | String c r =>
      match rstrip r with
      | EmptyString => if isspace c then EmptyString else String c EmptyString
      | r' => String c r'
      end
  end.

(** [s.strip()] *)
Definition strip (s : string) : string := rstrip (lstrip s).

(** [len(s)] as a Python integer. *)
Definition len (s : string) : Z := Z.of_nat (String.length s).

(** ** [datetime.date] *)

Record date := mkdate { year : Z; month : Z; day : Z }.

Definition is_leap (y : Z) : bool :=
  (y mod 4 =? 0) && (negb (y mod 100 =? 0) || (y mod 400 =? 0)).

Definition days_in_month (y m : Z) : Z :=
  if m =? 2 then (if is_leap y then 29 else 28)
  else if (m =? 4) || (m =? 6) || (m =? 9) || (m =? 11) then 30
  else 31.

(** The range check of the [date] constructor (MINYEAR = 1, MAXYEAR = 9999). *)
Definition valid_date (d : date) : bool :=
  (1 <=? year d) && (year d <=? 9999)
  && (1 <=? month d) && (month d <=? 12)
  && (1 <=? day d) && (day d <=? days_in_month (year d) (month d)).

(** Dates compare as the tuples (year, month, day). *)
Definition date_compare (a b : date) : comparison :=
  match year a ?= year b with
  | Eq => match month a ?= month b with
          | Eq => day a ?= day b
          | c => c
          end
  | c => c
  end.

Definition date_ltb (a b : date) : bool :=
  match date_compare a b with Lt => true | _ => false end.

Definition date_leb (a b : date) : bool :=
  match date_compare a b with Gt => false | _ => true end.

(** *** [date.isoformat]: ["%04d-%02d-%02d"] *)

Definition digit_char (n : Z) : ascii := ascii_of_N (Z.to_N (48 + n mod 10)).

(** The [w] digits of [n], most significant first: ["%0wd" % n] for
    [0 <= n < 10^w]. *)
Fixpoint fmt_d (w : nat) (n : Z) : string :=
  match w with
  | O => EmptyString
  | S w' => String (digit_char (n / 10 ^ Z.of_nat w')) (fmt_d w' (n mod 10 ^ Z.of_nat w'))
  end.

Definition isoformat (d : date) : string :=
  fmt_d 4 (year d) +:+ "-" +:+ fmt_d 2 (month d) +:+ "-" +:+ fmt_d 2 (day d).

(** *** [date.fromisoformat]

    The parser is the standard library's.  Up to Python 3.10 it accepts the
    format [isoformat] writes and nothing else: four digits, a dash, two
    digits, a dash, two digits, then the range check of the constructor;
    that parser is [fromisoformat_strict] below.  From Python 3.11 on it
    also accepts the basic and the week spellings of ISO 8601.  The router
    is therefore written over any parser ([DateParser]); the properties
    that depend on it ask only that it reads back what [isoformat] writes
    ([reads_back]), which holds of every version.  [None] stands for
    [ValueError]. *)

Definition digit_val (c : ascii) : option Z :=
  let n := Z.of_N (N_of_ascii c) in
  if (48 <=? n) && (n <=? 57) then Some (n - 48) else None.

Fixpoint parse_digits (w : nat) (s : string) (acc : Z) : option (Z * string) :=
  match w with
  | O => Some (acc, s)
  | S w' =>
      match s with
      | EmptyString => None
      | String c r =>
          match digit_val c with
          | Some v => parse_digits w' r (acc * 10 + v)
          | None => None
          end
      end
  end.

Definition expect_char (c : ascii) (s : string) : option string :=
  match s with
  | String c' r => if Ascii.eqb c c' then Some r else None
  | EmptyString => None
  end.

Definition new_date (y m d : Z) : option date :=
  let r := mkdate y m d in if valid_date r then Some r else None.

Definition fromisoformat_strict (s : string) : option date :=
  '(y, s1) ← parse_digits 4 s 0;
  s2 ← expect_char "-" s1;
  '(m, s3) ← parse_digits 2 s2 0;
  s4 ← expect_char "-" s3;
  '(d, s5) ← parse_digits 2 s4 0;
  match s5 with
  | EmptyString => new_date y m d
  | String _ _ => None
  end.

Class DateParser := fromisoformat : string → option date.

#[global] Instance strict_parser : DateParser := fromisoformat_strict.

Definition reads_back `{dp : DateParser} : Prop :=
  ∀ d, valid_date d = true → fromisoformat (isoformat d) = Some d.

(** ** BSON values, ObjectId and documents *)

(** [bytes.fromhex]: two hexadecimal digits per byte, ASCII whitespace
    between bytes is skipped.  [None] stands for [ValueError]. *)
Definition hex_val (c : ascii) : option Z :=
  let n := Z.of_N (N_of_ascii c) in
  if (48 <=? n) && (n <=? 57) then Some (n - 48)
  else if (97 <=? n) && (n <=? 102) then Some (n - 87)
  else if (65 <=? n) && (n <=? 70) then Some (n - 55)
  else None.

Definition is_ascii_space (c : ascii) : bool :=
  let n := Z.of_N (N_of_ascii c) in
  ((9 <=? n) && (n <=? 13)) || (n =? 32).

Fixpoint fromhex (s : string) : option (list Z) :=
  match s with
  | EmptyString => Some []
  | String c r =>
      if is_ascii_space c then fromhex r
      else match hex_val c with
           | None => None
           | Some hi =>
               match r with
               | EmptyString => None
               | String c' r' =>
                   match hex_val c' with
                   | None => None
                   | Some lo => cons (16 * hi + lo) <$> fromhex r'
                   end
               end
           end
  end.

Definition hex_char (n : Z) : ascii :=
  ascii_of_N (Z.to_N (if n <? 10 then 48 + n else 87 + n)).

Fixpoint hexlify (bs : list Z) : string :=
  match bs with
  | [] => EmptyString
  | b :: r => String (hex_char (b / 16)) (String (hex_char (b mod 16)) (hexlify r))
  end.

(** A [bson.ObjectId], held as its bytes. *)
Record oid := Oid { binary : list Z }.

#[global] Instance oid_eq_dec : EqDecision oid.
Proof. solve_decision. Defined.

#[global] Instance oid_countable : Countable oid :=
  inj_countable' binary Oid (λ o, match o with Oid _ => eq_refl end).

(** [ObjectId(s)] for a string [s]: the length must be 24 and the string
    must decode as hexadecimal.  [None] stands for [InvalidId]. *)
Definition ObjectId (s : string) : option oid :=
  if (String.length s =? 24)%nat then Oid <$> fromhex s else None.

Inductive value :=
  | VNone
  | VStr (s : string)
  | VOid (o : oid).

#[global] Instance value_eq_dec : EqDecision value.
Proof. solve_decision. Defined.

(** [str(v)] *)
Definition str (v : value) : string :=
  match v with
  | VNone => "None"
  | VStr s => s
  | VOid o => hexlify (binary o)
  end.

Abbreviation document := (gmap string value).

(** [doc.get(key)] and [doc.get(key, default)] *)
Definition get (doc : document) (key : string) : value := default VNone (doc !! key).
Definition get_or (doc : document) (key : string) (dflt : value) : value :=
  default dflt (doc !! key).

(** What a query returns for the document stored under [i]. *)
Definition with_id (i : value) (fields : document) : document := <["_id" := i]> fields.

(** ** The query language of the document store (the part the router uses) *)

Inductive cond :=
  | Equals (v : value)      (* {"f": v} *)
  | Gte (v : value)         (* {"f": {"$gte": v}} *)
  | Lte (v : value)         (* {"f": {"$lte": v}} *)
  | Exists (b : bool).      (* {"f": {"$exists": b}} *)

Inductive query :=
  | Q_field (k : string) (c : cond)
  | Q_and (qs : list query)   (* a query dict: all of its entries *)
  | Q_or (qs : list query).   (* "$or": [...] *)

Fixpoint bytes_compare (a b : list Z) : comparison :=
  match a, b with
  | [], [] => Eq
  | [], _ :: _ => Lt
  | _ :: _, [] => Gt
  | x :: a', y :: b' => match x ?= y with Eq => bytes_compare a' b' | c => c end
  end.

(** Values of one BSON type compare with each other, values of different
    types do not match a comparison operator. *)
Definition bson_compare (a b : value) : option comparison :=
  match a, b with
  | VNone, VNone => Some Eq
  | VStr s, VStr t => Some (String.compare s t)
  | VOid o, VOid p => Some (bytes_compare (binary o) (binary p))
  | _, _ => None
  end.

(** A missing field is compared like a null one. *)
Definition matches_cond (c : cond) (field : option value) : bool :=
  match c with
  | Equals v => bool_decide (default VNone field = v)
  | Gte v => match bson_compare (default VNone field) v with
             | Some Lt | None => false
             | Some _ => true
             end
  | Lte v => match bson_compare (default VNone field) v with
             | Some Gt | None => false
             | Some _ => true
             end
  | Exists b => Bool.eqb (bool_decide (is_Some field)) b
  end.

Fixpoint matches (q : query) (doc : document) : bool :=
  match q with
  | Q_field k c => matches_cond c (doc !! k)
  | Q_and qs => forallb (λ q', matches q' doc) qs
  | Q_or qs => existsb (λ q', matches q' doc) qs
  end.

(** The sort order: Null, then strings, then ObjectIds. *)
Definition bson_rank (v : value) : Z :=
  match v with VNone => 0 | VStr _ => 1 | VOid _ => 2 end.

Definition bson_leb (a b : value) : bool :=
  match bson_compare a b with
  | Some Gt => false
  | Some _ => true
  | None => bson_rank a <? bson_rank b
  end.

Definition sort_by (key : string) (docs : list document) : list document :=
  merge_sort (λ d1 d2, Is_true (bson_leb (get d1 key) (get d2 key))) docs.

(** ** Exceptions and the endpoint monad *)

Inductive exn :=
  | HTTPException (status_code : Z) (detail : string)
  | RequestValidationError     (* the request body fails the payload model *)
  | ValidationError            (* a response model rejects its arguments *)
  | TypeError
  | DuplicateKeyError.

Inductive outcome (A : Type) : Type :=
  | Ok (a : A)
  | Raise (e : exn).
Arguments Ok {A} a.
Arguments Raise {A} e.

#[global] Instance outcome_ret : MRet outcome := λ A, Ok.
#[global] Instance outcome_bind : MBind outcome :=
  λ A B f m, match m with Ok a => f a | Raise e => Raise e end.

(** The status line FastAPI answers with. *)
Definition http_status {A} (r : outcome A) : Z :=
  match r with
  | Ok _ => 200
  | Raise (HTTPException c _) => c
  | Raise RequestValidationError => 422
  | Raise _ => 500
  end.

(** [..database]: the two collections the router imports. *)
Record db := mkdb {
  teachers_collection : gmap string document;
  announcements_collection : gmap oid document
}.

Definition M (A : Type) : Type := db → outcome A * db.

#[global] Instance M_ret : MRet M := λ A a st, (Ok a, st).
#[global] Instance M_bind : MBind M :=
  λ A B f m st, match m st with
                | (Ok a, st') => f a st'
                | (Raise e, st') => (Raise e, st')
                end.

Definition raise {A} (e : exn) : M A := λ st, (Raise e, st).
Definition lift {A} (m : outcome A) : M A := λ st, (m, st).

(** *** Collection operations *)

(** [teachers_collection.find_one({"_id": username})] *)
Definition teachers_find_one (username : string) : M (option document) :=
  λ st, (Ok (with_id (VStr username) <$> teachers_collection st !! username), st).

Definition all_documents (st : db) : list document :=
  (λ kv, with_id (VOid kv.1) kv.2) <$> map_to_list (announcements_collection st).

(** [announcements_collection.find(query).sort(key, 1)] *)
Definition find_sorted (q : query) (key : string) : M (list document) :=
  λ st, (Ok (sort_by key (filter (λ d, Is_true (matches q d)) (all_documents st))), st).

(** [announcements_collection.insert_one(doc)]; [new_id] is the ObjectId
    the driver generates for the document. *)
Definition insert_one (new_id : oid) (doc : document) : M oid :=
  λ st, match announcements_collection st !! new_id with
        | Some _ => (Raise DuplicateKeyError, st)
        | None => (Ok new_id,
                   mkdb (teachers_collection st)
                        (<[new_id := doc]> (announcements_collection st)))
        end.

(** [announcements_collection.find_one({"_id": i})] *)
Definition find_one (i : oid) : M (option document) :=
  λ st, (Ok (with_id (VOid i) <$> announcements_collection st !! i), st).

(** [find_one_and_update({"_id": i}, {"$set": fields}, return_document=AFTER)] *)
Definition find_one_and_update (i : oid) (fields : document) : M (option document) :=
  λ st, match announcements_collection st !! i with
        | Some d =>
            (Ok (Some (with_id (VOid i) (fields ∪ d))),
             mkdb (teachers_collection st)
                  (<[i := fields ∪ d]> (announcements_collection st)))
        | None => (Ok None, st)
        end.

(** [delete_one({"_id": i}).deleted_count] *)
Definition delete_one (i : oid) : M Z :=
  λ st, match announcements_collection st !! i with
        | Some _ => (Ok 1, mkdb (teachers_collection st) (delete i (announcements_collection st)))
        | None => (Ok 0, st)
        end.

(** ** The router *)

Record AnnouncementPayload := mkPayload {
  title : string;
  message : string;
  start_date : option date;
  end_date : date
}.

Record AnnouncementResponse := mkResponse {
  resp_id : string;
  resp_title : string;
  resp_message : string;
  resp_start_date : option date;
  resp_end_date : date
}.

(** The validator of [end_date]; [values] holds the fields validated
    before it, here [start_date].  [None] stands for [ValueError]. *)
Definition validate_end_date (end_ : date) (values : option date) : option date :=
  match values with
  | Some start => if date_ltb end_ start then None else Some end_
  | None => Some end_
  end.

(** Building an [AnnouncementPayload] from a request body whose fields
    have the declared types: the length bounds of [Field], then the
    validator. *)
Definition AnnouncementPayload_validate (body : AnnouncementPayload)
  : outcome AnnouncementPayload :=
  if (1 <=? len (title body)) && (len (title body) <=? 120)
     && (1 <=? len (message body)) && (len (message body) <=? 800)
  then match validate_end_date (end_date body) (start_date body) with
       | Some _ => Ok body
       | None => Raise RequestValidationError
       end
  else Raise RequestValidationError.

(** [not d] for a [find_one] result: [None] and the empty dict are falsy. *)
Definition not_doc (d : option document) : bool :=
  match d with
  | None => true
  | Some m => bool_decide (m = ∅)
  end.

(** [not username] for an optional string. *)
Definition not_str (s : option string) : bool :=
  match s with
  | None => true
  | Some u => bool_decide (u = EmptyString)
  end.

Definition _require_teacher (username : option string) : M document :=
  if not_str username then
    raise (HTTPException 401 "Authentication required for this action")
  else
    teacher ← teachers_find_one (default EmptyString username);
    if not_doc teacher then
      raise (HTTPException 401 "Invalid teacher credentials")
    else mret (default ∅ teacher).

Definition _parse_optional_date `{dp : DateParser} (v : value) : outcome (option date) :=
  match v with
  | VNone => Ok None
  | VStr s => if bool_decide (s = EmptyString) then Ok None else Ok (fromisoformat s)
  | VOid _ => Raise TypeError
  end.

Definition _serialize_payload (payload : AnnouncementPayload) : document :=
  {[ "title"%string := VStr (strip (title payload));
     "message"%string := VStr (strip (message payload));
     "start_date"%string := match start_date payload with
                            | Some d => VStr (isoformat d)
                            | None => VNone
                            end;
     "end_date"%string := VStr (isoformat (end_date payload)) ]}.

(** A [str] field of the response model accepts a string only. *)
Definition str_field (v : value) : outcome string :=
  match v with
  | VStr s => Ok s
  | _ => Raise ValidationError
  end.

Definition _doc_to_response `{dp : DateParser} (today : date) (doc : document)
  : outcome AnnouncementResponse :=
  let id := str (get doc "_id") in
  let title := get_or doc "title" (VStr EmptyString) in
  let message := get_or doc "message" (VStr EmptyString) in
  start ← _parse_optional_date (get doc "start_date");
  end_ ← _parse_optional_date (get doc "end_date");
  title ← str_field title;
  message ← str_field message;
  mret (mkResponse id title message start (default today end_)).

(** The filter [list_announcements] builds. *)
Definition list_query (today_iso : string) (include_expired include_future : bool) : query :=
  Q_and
    (if negb include_expired then
       Q_field "end_date" (Gte (VStr today_iso))
       :: (if negb include_future then
             [Q_or [Q_and [Q_field "start_date" (Exists false)];
                    Q_and [Q_field "start_date" (Equals VNone)];
                    Q_and [Q_field "start_date" (Lte (VStr today_iso))]]]
           else [])
     else []).

Definition list_announcements `{dp : DateParser} (today : date)
    (include_expired include_future : bool)
  : M (list AnnouncementResponse) :=
  let today_iso := isoformat today in
  cursor ← find_sorted (list_query today_iso include_expired include_future) "end_date";
  lift (mapM (_doc_to_response today) cursor).

Definition create_announcement `{dp : DateParser} (today : date) (new_id : oid)
    (payload : AnnouncementPayload) (teacher_username : option string)
  : M AnnouncementResponse :=
  _ ← _require_teacher teacher_username;
  let serialized := _serialize_payload payload in
  inserted_id ← insert_one new_id serialized;
  created ← find_one inserted_id;
  if not_doc created then
    raise (HTTPException 500 "Failed to create announcement")
  else lift (_doc_to_response today (default ∅ created)).

Definition update_announcement `{dp : DateParser} (today : date) (announcement_id : string)
    (payload : AnnouncementPayload) (teacher_username : option string)
  : M AnnouncementResponse :=
  _ ← _require_teacher teacher_username;
  match ObjectId announcement_id with
  | None => raise (HTTPException 404 "Announcement not found")
  | Some object_id =>
      let serialized := _serialize_payload payload in
      result ← find_one_and_update object_id serialized;
      if not_doc result then
        raise (HTTPException 404 "Announcement not found")
      else lift (_doc_to_response today (default ∅ result))
  end.

Definition delete_announcement (announcement_id : string) (teacher_username : option string)
  : M (gmap string string) :=
  _ ← _require_teacher teacher_username;
  match ObjectId announcement_id with
  | None => raise (HTTPException 404 "Announcement not found")
  | Some object_id =>
      deleted_count ← delete_one object_id;
      if deleted_count =? 0 then
        raise (HTTPException 404 "Announcement not found")
      else mret {[ "message"%string := "Announcement deleted"%string ]}
  end.

(** *** The routes: FastAPI builds the payload model from the request
    body before it calls the endpoint function, and answers 422 when the
    model rejects the body. *)

Definition post_route `{dp : DateParser} (today : date) (new_id : oid)
    (body : AnnouncementPayload) (teacher_username : option string)
  : M AnnouncementResponse :=
  payload ← lift (AnnouncementPayload_validate body);
  create_announcement today new_id payload teacher_username.

Definition put_route `{dp : DateParser} (today : date) (announcement_id : string)
    (body : AnnouncementPayload) (teacher_username : option string)
  : M AnnouncementResponse :=
  payload ← lift (AnnouncementPayload_validate body);
  update_announcement today announcement_id payload teacher_username.

(** ** Stored announcements

    [well_typed] is the shape every reader of the collection copes with:
    strings (or nothing) under [title] and [message], a string, null or
    nothing under the two date fields.  [is_announcement] asks moreover that
    the dates are written the way [_serialize_payload] writes them. *)

Definition text_field (v : option value) : bool :=
  match v with
  | None | Some (VStr _) => true
  | Some _ => false
  end.

Definition date_field (v : option value) : bool :=
  match v with
  | None | Some VNone | Some (VStr _) => true
  | Some (VOid _) => false
  end.

Definition well_typed (doc : document) : bool :=
  text_field (doc !! "title") && text_field (doc !! "message")
  && date_field (doc !! "start_date") && date_field (doc !! "end_date").

Definition iso_date_field (v : option value) : bool :=
  match v with
  | Some (VStr s) => bool_decide (is_Some (fromisoformat_strict s))
  | _ => false
  end.

Definition is_announcement (doc : document) : bool :=
  text_field (doc !! "title") && text_field (doc !! "message")
  && match doc !! "start_date" with
     | None | Some VNone => true
     | v => iso_date_field v
     end
  && iso_date_field (doc !! "end_date").

(** Every document of the announcements collection satisfies [P]. *)
Definition all_stored (P : document → bool) (st : db) : bool :=
  forallb (λ kv, P kv.2) (map_to_list (announcements_collection st)).

(** What a well-typed field reads back as. *)
Definition text_of (v : option value) : string :=
  match v with
  | Some (VStr s) => s
  | _ => EmptyString
  end.

Definition read_date `{dp : DateParser} (v : option value) : option date :=
  match v with
  | Some (VStr s) => if bool_decide (s = EmptyString) then None else fromisoformat s
  | _ => None
  end.

Definition unauthenticated : exn :=
  HTTPException 401 "Authentication required for this action".
Definition unauthorized : exn :=
  HTTPException 401 "Invalid teacher credentials".

(** The end date of a stored announcement is [e]. *)
Definition ends_on (doc : document) (e : date) : Prop :=
  valid_date e = true ∧ doc !! "end_date" = Some (VStr (isoformat e)).

(** The start date of a stored announcement is absent, null, or a date
    satisfying [P]. *)
Definition starts (doc : document) (P : date → Prop) : Prop :=
  doc !! "start_date" = None ∨ doc !! "start_date" = Some VNone
  ∨ ∃ s, valid_date s = true ∧ doc !! "start_date" = Some (VStr (isoformat s)) ∧ P s.

(** A stored date field that reads back as no date: missing, null, empty,
    or a string [fromisoformat] rejects. *)
Definition unreadable_date `{dp : DateParser} (v : option value) : Prop :=
  v = None ∨ v = Some VNone ∨ v = Some (VStr EmptyString)
  ∨ ∃ s, v = Some (VStr s) ∧ fromisoformat s = None.

(** A request body that breaks a constraint of the payload model. *)
Definition violates_constraints (body : AnnouncementPayload) : Prop :=
  len (title body) < 1 ∨ 120 < len (title body)
  ∨ len (message body) < 1 ∨ 800 < len (message body)
  ∨ ∃ s, start_date body = Some s ∧ date_ltb (end_date body) s = true.

(** The identifier names no stored document. *)
Definition names_nothing (announcement_id : string) (st : db) : Prop :=
  ObjectId announcement_id = None
  ∨ ∃ i, ObjectId announcement_id = Some i ∧ announcements_collection st !! i = None.

Definition not_found : exn := HTTPException 404 "Announcement not found".

(** ** Vocabulary of the further properties *)

(** The text begins, or ends, with a whitespace character. *)
Definition starts_with_space (s : string) : bool :=
  match s with
  | String c _ => isspace c
  | EmptyString => false
  end.

Fixpoint ends_with_space (s : string) : bool :=
  match s with
  | EmptyString => false
  | String c EmptyString => isspace c
  | String _ r => ends_with_space r
  end.

(** An ObjectId as the driver generates it: twelve bytes. *)
Definition oid_ok (o : oid) : bool :=
  (length (binary o) =? 12)%nat
  && forallb (λ b, (0 <=? b) && (b <? 256)) (binary o).


(** The fields a payload sets. *)
Definition payload_fields : list string :=
  ["title"%string; "message"%string; "start_date"%string; "end_date"%string].

(** The order of the listing. *)
Definition by_end_date (a b : AnnouncementResponse) : Prop :=
  date_leb (resp_end_date a) (resp_end_date b) = true.

(** The body of a successful delete. *)
Definition deleted : gmap string string :=
  {[ "message"%string := "Announcement deleted"%string ]}.

(** Concrete data for the examples. *)
Module Sample.
Definition today : date := mkdate 2026 11 3.
Definition id1 : oid := Oid [1; 2; 3; 4; 5; 6; 7; 8; 9; 10; 11; 255].
Definition id2 : oid := Oid [1; 2; 3; 4; 5; 6; 7; 8; 9; 10; 11; 12].
Definition id3 : oid := Oid [1; 2; 3; 4; 5; 6; 7; 8; 9; 10; 11; 13].
Definition empty_db : db := mkdb {[ "alice"%string := (∅ : document) ]} ∅.
Definition exam : AnnouncementPayload :=
  mkPayload "Exam" "Midterm Friday" None (mkdate 2099 1 1).
Definition expired : AnnouncementPayload :=
  mkPayload "Old" "Sports day" (Some (mkdate 2020 1 1)) (mkdate 2020 2 1).
Definition upcoming : AnnouncementPayload :=
  mkPayload "Fair" "Science fair" (Some (mkdate 2027 1 10)) (mkdate 2027 1 12).
Definition blank : AnnouncementPayload :=
  mkPayload " " "Midterm Friday" None (mkdate 2099 1 1).
Definition untitled : AnnouncementPayload :=
  mkPayload EmptyString "Midterm Friday" None (mkdate 2099 1 1).
Definition backwards : AnnouncementPayload :=
  mkPayload "Exam" "Midterm Friday" (Some (mkdate 2099 1 2)) (mkdate 2099 1 1).
(** A document whose dates cannot be read. *)
Definition garbled : document :=
  {[ "title"%string := VStr "Exam"; "end_date"%string := VStr "2026-13-40";
     "start_date"%string := VStr "soon" ]}.
(** The collection after three announcements were created. *)
Definition three : db :=
  (post_route today id3 upcoming (Some "alice"%string)
     (post_route today id2 expired (Some "alice"%string)
        (post_route today id1 exam (Some "alice"%string) empty_db).2).2).2.
(** A collection with one document whose end_date is not text. *)
Definition odd : db :=
  mkdb {[ "alice"%string := (∅ : document) ]}
       {[ id1 := ({[ "title"%string := VStr "Exam"; "end_date"%string := VOid id2 ]}
                  : document) ]}.
End Sample.

(** * Properties *)

(** ** Digits *)

Lemma digit_char_code n : Z.of_N (N_of_ascii (digit_char n)) = 48 + n mod 10.
Proof.
  unfold digit_char. pose proof (Z.mod_pos_bound n 10 ltac:(lia)).
  rewrite N_ascii_embedding; lia.
Qed.

Lemma digit_val_char n : digit_val (digit_char n) = Some (n mod 10).
Proof.
  unfold digit_val. rewrite digit_char_code.
  pose proof (Z.mod_pos_bound n 10 ltac:(lia)).
  replace ((48 <=? 48 + n mod 10) && (48 + n mod 10 <=? 57)) with true
    by (symmetry; apply andb_true_iff; lia).
  f_equal. lia.
Qed.

Lemma digit_val_inv c v : digit_val c = Some v → 0 <= v <= 9 ∧ c = digit_char v.
Proof.
  unfold digit_val. intros H.
  destruct ((48 <=? _) && _) eqn:E; [|discriminate].
  apply andb_true_iff in E as [E1 E2]. injection H as <-.
  split; [lia|]. unfold digit_char.
  rewrite Z.mod_small by lia.
  replace (48 + (Z.of_N (N_of_ascii c) - 48)) with (Z.of_N (N_of_ascii c)) by lia.
  by rewrite N2Z.id, ascii_N_embedding.
Qed.

Lemma digit_char_compare a b :
  0 <= a <= 9 → 0 <= b <= 9 →
  Ascii.compare (digit_char a) (digit_char b) = (a ?= b).
Proof.
  intros Ha Hb. unfold Ascii.compare.
  rewrite <- N2Z.inj_compare, !digit_char_code, !Z.mod_small by lia.
  destruct (Z.compare_spec a b), (Z.compare_spec (48 + a) (48 + b)); trivial; lia.
Qed.

Lemma append_cons c s t : String c s +:+ t = String c (s +:+ t).
Proof. reflexivity. Qed.

Lemma append_empty_l t : EmptyString +:+ t = t.
Proof. reflexivity. Qed.

Lemma append_empty_r s : s +:+ EmptyString = s.
Proof. induction s as [|c s IH]; [done | by rewrite append_cons, IH]. Qed.

Section fixed_width.
Variable w : nat.

Lemma pow10_pos : 0 < 10 ^ Z.of_nat w.
Proof. apply Z.pow_pos_nonneg; lia. Qed.

Lemma pow10_succ : 10 ^ Z.of_nat (S w) = 10 * 10 ^ Z.of_nat w.
Proof. rewrite Nat2Z.inj_succ, Z.pow_succ_r; lia. Qed.

(** A number below [10^(w+1)] splits into its leading digit and the rest. *)
Lemma leading_digit n :
  0 <= n < 10 ^ Z.of_nat (S w) →
  0 <= n / 10 ^ Z.of_nat w <= 9
  ∧ 0 <= n mod 10 ^ Z.of_nat w < 10 ^ Z.of_nat w
  ∧ n = 10 ^ Z.of_nat w * (n / 10 ^ Z.of_nat w) + n mod 10 ^ Z.of_nat w.
Proof.
  rewrite pow10_succ. intros Hn. pose proof pow10_pos as HP.
  pose proof (Z.mod_pos_bound n _ HP). pose proof (Z.div_mod n (10 ^ Z.of_nat w) ltac:(lia)).
  split; [|split; [done|done]].
  split; [apply Z.div_pos; lia|].
  assert (n / 10 ^ Z.of_nat w < 10); [|lia]. apply Z.div_lt_upper_bound; lia.
Qed.
End fixed_width.

(** ** Fixed-width numerals: printing, parsing, ordering *)

Lemma parse_fmt w n rest acc :
  0 <= n < 10 ^ Z.of_nat w →
  parse_digits w (fmt_d w n +:+ rest) acc = Some (acc * 10 ^ Z.of_nat w + n, rest).
Proof.
  revert n acc. induction w as [|w IH]; intros n acc Hn.
  - change (10 ^ Z.of_nat 0) with 1 in *. cbn [fmt_d parse_digits].
    rewrite append_empty_l. do 2 f_equal. lia.
  - destruct (leading_digit w n Hn) as (Hq & Hr & Hsplit).
    cbn [fmt_d parse_digits]. rewrite append_cons, digit_val_char.
    rewrite (Z.mod_small (n / 10 ^ Z.of_nat w) 10) by lia. rewrite IH by lia.
    do 2 f_equal. rewrite pow10_succ. nia.
Qed.

Lemma parse_digits_inv w s acc v rest :
  parse_digits w s acc = Some (v, rest) →
  ∃ n, 0 <= n < 10 ^ Z.of_nat w ∧ v = acc * 10 ^ Z.of_nat w + n ∧ s = fmt_d w n +:+ rest.
Proof.
  revert s acc. induction w as [|w IH]; intros s acc H.
  - cbn [parse_digits] in H. injection H as <- <-. exists 0.
    change (10 ^ Z.of_nat 0) with 1. split; [lia|]. split; [lia|done].
  - cbn [parse_digits] in H. destruct s as [|c r]; [discriminate|].
    destruct (digit_val c) as [d|] eqn:Hd; [|discriminate].
    apply digit_val_inv in Hd as [Hd ->].
    apply IH in H as (m & Hm & -> & ->).
    pose proof (pow10_pos w) as HP.
    exists (d * 10 ^ Z.of_nat w + m). rewrite pow10_succ.
    assert ((d * 10 ^ Z.of_nat w + m) / 10 ^ Z.of_nat w = d) as Hq.
    { symmetry. apply (Z.div_unique _ _ d m); lia. }
    assert ((d * 10 ^ Z.of_nat w + m) mod 10 ^ Z.of_nat w = m) as Hr.
    { symmetry. apply (Z.mod_unique _ _ d m); lia. }
    split; [nia|]. split; [lia|].
    cbn [fmt_d]. by rewrite Hq, Hr, append_cons.
Qed.

Lemma compare_fmt w a b s t :
  0 <= a < 10 ^ Z.of_nat w → 0 <= b < 10 ^ Z.of_nat w →
  String.compare (fmt_d w a +:+ s) (fmt_d w b +:+ t)
  = match a ?= b with Eq => String.compare s t | c => c end.
Proof.
  revert a b. induction w as [|w IH]; intros a b Ha Hb.
  - change (10 ^ Z.of_nat 0) with 1 in *.
    replace a with 0 by lia. replace b with 0 by lia. done.
  - destruct (leading_digit w a Ha) as (Hqa & Hra & Hsa).
    destruct (leading_digit w b Hb) as (Hqb & Hrb & Hsb).
    pose proof (pow10_pos w) as HP.
    cbn [fmt_d]. rewrite !append_cons. cbn [String.compare].
    rewrite digit_char_compare by done.
    destruct (Z.compare_spec (a / 10 ^ Z.of_nat w) (b / 10 ^ Z.of_nat w)) as [Heq|Hlt|Hgt].
    + rewrite IH by done.
      destruct (Z.compare_spec (a mod 10 ^ Z.of_nat w) (b mod 10 ^ Z.of_nat w)),
               (Z.compare_spec a b); trivial; nia.
    + assert (a < b) as Hab by nia. apply Z.compare_lt_iff in Hab. by rewrite Hab.
    + assert (b < a) as Hab by nia. apply Z.compare_gt_iff in Hab. by rewrite Hab.
Qed.

(** ** Dates *)

Lemma valid_date_bounds d :
  valid_date d = true →
  0 <= year d < 10 ^ Z.of_nat 4 ∧ 0 <= month d < 10 ^ Z.of_nat 2
  ∧ 0 <= day d < 10 ^ Z.of_nat 2.
Proof.
  unfold valid_date, days_in_month. intros H.
  repeat (apply andb_true_iff in H as [H ?]).
  change (10 ^ Z.of_nat 4) with 10000. change (10 ^ Z.of_nat 2) with 100.
  repeat match goal with H : context [if ?b then _ else _] |- _ => destruct b end; lia.
Qed.

(** Reading back what [isoformat] wrote gives the date it was given. *)
Lemma fromisoformat_strict_isoformat d :
  valid_date d = true → fromisoformat_strict (isoformat d) = Some d.
Proof.
  intros Hv. destruct (valid_date_bounds d Hv) as (Hy & Hm & Hd).
  unfold fromisoformat_strict, isoformat.
  rewrite (parse_fmt 4 (year d)) by done. cbn [mbind option_bind].
  rewrite append_cons, append_empty_l. cbn [expect_char Ascii.eqb Bool.eqb mbind option_bind].
  rewrite (parse_fmt 2 (month d)) by done. cbn [mbind option_bind].
  rewrite append_cons, append_empty_l. cbn [expect_char Ascii.eqb Bool.eqb mbind option_bind].
  rewrite <- (append_empty_r (fmt_d 2 (day d))), (parse_fmt 2 (day d)) by done.
  cbn [mbind option_bind]. unfold new_date.
  rewrite !Z.mul_0_l, !Z.add_0_l.
  destruct d as [y m dd]; cbn [year month day] in *. by rewrite Hv.
Qed.

Lemma expect_char_inv c s r : expect_char c s = Some r → s = String c r.
Proof.
  destruct s as [|c' s]; simpl; [done|].
  destruct (Ascii.eqb c c') eqn:E; [|done].
  apply Ascii.eqb_eq in E as ->. congruence.
Qed.

(** The strict parser accepts canonical strings of valid dates only. *)
Lemma fromisoformat_strict_inv s d :
  fromisoformat_strict s = Some d → valid_date d = true ∧ s = isoformat d.
Proof.
  unfold fromisoformat_strict. intros H.
  destruct (parse_digits 4 s 0) as [[y s1]|] eqn:E1; [|done].
  apply parse_digits_inv in E1 as (ny & Hy & -> & ->). cbn [mbind option_bind] in H.
  destruct (expect_char "-" s1) as [s2|] eqn:E2; [|done].
  apply expect_char_inv in E2 as ->. cbn [mbind option_bind] in H.
  destruct (parse_digits 2 s2 0) as [[m s3]|] eqn:E3; [|done].
  apply parse_digits_inv in E3 as (nm & Hm & -> & ->). cbn [mbind option_bind] in H.
  destruct (expect_char "-" s3) as [s4|] eqn:E4; [|done].
  apply expect_char_inv in E4 as ->. cbn [mbind option_bind] in H.
  destruct (parse_digits 2 s4 0) as [[dd s5]|] eqn:E5; [|done].
  apply parse_digits_inv in E5 as (nd & Hd & -> & ->). cbn [mbind option_bind] in H.
  destruct s5; [|done]. unfold new_date in H.
  destruct (valid_date _) eqn:Hv; [|done]. injection H as <-.
  split; [done|]. unfold isoformat. cbn [year month day].
  rewrite !Z.mul_0_l, !Z.add_0_l, append_empty_r. done.
Qed.

Lemma strict_reads_back : reads_back (dp := strict_parser).
Proof. intros d. apply fromisoformat_strict_isoformat. Qed.

Lemma isoformat_nonempty d : isoformat d ≠ EmptyString.
Proof. unfold isoformat. cbn [fmt_d]. by rewrite append_cons. Qed.

Lemma isoformat_inj a b :
  valid_date a = true → valid_date b = true → isoformat a = isoformat b → a = b.
Proof.
  intros Ha Hb Heq. apply fromisoformat_strict_isoformat in Ha, Hb. congruence.
Qed.

(** Canonical date strings are ordered like the dates they denote. *)
Lemma isoformat_compare a b :
  valid_date a = true → valid_date b = true →
  String.compare (isoformat a) (isoformat b) = date_compare a b.
Proof.
  intros Ha Hb.
  destruct (valid_date_bounds a Ha) as (Hya & Hma & Hda).
  destruct (valid_date_bounds b Hb) as (Hyb & Hmb & Hdb).
  unfold isoformat, date_compare.
  rewrite compare_fmt by done. rewrite !append_cons, !append_empty_l.
  cbn [String.compare]. change (Ascii.compare "-" "-") with Eq. cbv iota.
  rewrite compare_fmt by done.
  cbn [String.compare]. change (Ascii.compare "-" "-") with Eq. cbv iota.
  rewrite <- (append_empty_r (fmt_d 2 (day a))), <- (append_empty_r (fmt_d 2 (day b))).
  rewrite compare_fmt by done. cbn [String.compare].
  by destruct (year a ?= year b), (month a ?= month b), (day a ?= day b).
Qed.

Lemma date_compare_antisym a b : date_compare a b = CompOpp (date_compare b a).
Proof.
  unfold date_compare.
  rewrite (Z.compare_antisym (year a)), (Z.compare_antisym (month a)),
    (Z.compare_antisym (day a)).
  by destruct (year a ?= year b), (month a ?= month b), (day a ?= day b).
Qed.

Lemma date_leb_not_ltb a b : date_leb a b = true → date_ltb b a = false.
Proof.
  unfold date_leb, date_ltb. rewrite (date_compare_antisym b a).
  by destruct (date_compare a b).
Qed.

(** ** The monad *)

Lemma bind_ok {A B} (m : M A) (f : A → M B) st a st' :
  m st = (Ok a, st') → (m ≫= f) st = f a st'.
Proof. intros H. unfold mbind, M_bind. by rewrite H. Qed.

Lemma bind_raise {A B} (m : M A) (f : A → M B) st e st' :
  m st = (Raise e, st') → (m ≫= f) st = (Raise e, st').
Proof. intros H. unfold mbind, M_bind. by rewrite H. Qed.

Lemma mapM_outcome_length {A B} (f : A → outcome B) (l : list A) k :
  mapM f l = Ok k → length k = length l.
Proof.
  revert k. induction l as [|x l IH]; intros k.
  - by intros [= <-].
  - change (mapM f (x :: l)) with (f x ≫= λ y', mapM f l ≫= λ k', mret (y' :: k')).
    destruct (f x) as [y|]; [|done]. destruct (mapM f l) as [k'|]; [|done].
    intros [= <-]. cbn [length]. by rewrite (IH k').
Qed.

Lemma mapM_outcome {A B} (f : A → outcome B) (l : list A) :
  (∀ x, x ∈ l → ∃ y, f x = Ok y) →
  ∃ k, mapM f l = Ok k ∧ ∀ y, y ∈ k ↔ ∃ x, x ∈ l ∧ f x = Ok y.
Proof.
  induction l as [|x l IH]; intros Hall.
  - exists []. split; [done|]. intros y. split.
    + intros Hy. by apply elem_of_nil in Hy.
    + intros (x & Hx & _). by apply elem_of_nil in Hx.
  - destruct (Hall x) as [y Hy]; [by left|].
    destruct IH as (k & Hk & Hmem); [intros z Hz; apply Hall; by right|].
    exists (y :: k). split.
    + change (mapM f (x :: l)) with (f x ≫= λ y', mapM f l ≫= λ k', mret (y' :: k')).
      by rewrite Hy, Hk.
    + intros z. rewrite elem_of_cons, Hmem. split.
      * intros [->|(x' & Hx' & Hfx')]; [exists x; split; [by left|done]|].
        exists x'. split; [by right|done].
      * intros (x' & Hx' & Hfx'). apply elem_of_cons in Hx' as [->|Hx'].
        -- left. congruence.
        -- right. by exists x'.
Qed.

(** ** The teacher check *)

Lemma require_teacher_none st :
  _require_teacher None st = (Raise unauthenticated, st).
Proof. reflexivity. Qed.

Lemma require_teacher_unknown u st :
  teachers_collection st !! u = None →
  _require_teacher (Some u) st
  = (Raise (if bool_decide (u = EmptyString) then unauthenticated else unauthorized), st).
Proof.
  intros Hu. unfold _require_teacher, not_str. case_bool_decide; [done|].
  unfold mbind, M_bind, teachers_find_one. simpl. by rewrite Hu.
Qed.

Lemma require_teacher_known u t st :
  u ≠ EmptyString → teachers_collection st !! u = Some t →
  _require_teacher (Some u) st = (Ok (with_id (VStr u) t), st).
Proof.
  intros Hne Hu. unfold _require_teacher, not_str. rewrite bool_decide_eq_false_2 by done.
  unfold mbind, M_bind, teachers_find_one. simpl. rewrite Hu. simpl.
  rewrite bool_decide_eq_false_2; [done|]. apply insert_non_empty.
Qed.

(** Without a known teacher the three writing endpoints stop at the check. *)
Lemma require_teacher_rejects username st :
  username = None ∨ (∃ u, username = Some u ∧ teachers_collection st !! u = None) →
  ∃ detail, _require_teacher username st = (Raise (HTTPException 401 detail), st)
    ∧ (username = None → detail = "Authentication required for this action"%string)
    ∧ (∀ u, username = Some u → u ≠ EmptyString →
         detail = "Invalid teacher credentials"%string).
Proof.
  intros [->|(u & -> & Hu)].
  - eexists. split; [apply require_teacher_none|]. split; [done|]. by intros u [=].
  - rewrite (require_teacher_unknown u st Hu). case_bool_decide as Hempty.
    + eexists. split; [done|]. split; [by intros [=]|]. intros ? [= <-] ?. done.
    + eexists. split; [done|]. split; [by intros [=]|]. done.
Qed.

(** ** The payload model *)

Lemma validate_rejects body :
  violates_constraints body → AnnouncementPayload_validate body = Raise RequestValidationError.
Proof.
  unfold violates_constraints, AnnouncementPayload_validate.
  intros H. destruct (_ && _) eqn:E; [|done].
  repeat (apply andb_true_iff in E as [E ?]).
  destruct H as [?|[?|[?|[?|(s & Hs & Hlt)]]]]; try lia.
  rewrite Hs. unfold validate_end_date. by rewrite Hlt.
Qed.

Lemma validate_accepts body :
  1 <= len (title body) <= 120 → 1 <= len (message body) <= 800 →
  (∀ s, start_date body = Some s → date_ltb (end_date body) s = false) →
  AnnouncementPayload_validate body = Ok body.
Proof.
  intros Ht Hm Hs. unfold AnnouncementPayload_validate.
  replace (_ && _) with true by (symmetry; repeat (apply andb_true_iff; split); lia).
  unfold validate_end_date. destruct (start_date body) as [s|]; [|done].
  by rewrite (Hs s).
Qed.

(** C2: create, update and delete answer 401 and leave the store as it
    was when no teacher identity is supplied ("Authentication required
    for this action") and when the supplied username is not in the teacher
    directory ("Invalid teacher credentials"; an empty username is answered
    like a missing one). *)
Theorem C2_writes_require_teacher `{dp : DateParser}
    today new_id announcement_id payload username st :
  username = None ∨ (∃ u, username = Some u ∧ teachers_collection st !! u = None) →
  ∃ detail,
    create_announcement today new_id payload username st
      = (Raise (HTTPException 401 detail), st)
    ∧ update_announcement today announcement_id payload username st
      = (Raise (HTTPException 401 detail), st)
    ∧ delete_announcement announcement_id username st
      = (Raise (HTTPException 401 detail), st)
    ∧ (username = None → detail = "Authentication required for this action"%string)
    ∧ (∀ u, username = Some u → u ≠ EmptyString →
         detail = "Invalid teacher credentials"%string).
Proof.
  intros H. destruct (require_teacher_rejects username st H) as (detail & Hreq & Hnone & Hsome).
  exists detail. unfold create_announcement, update_announcement, delete_announcement.
  rewrite !(bind_raise _ _ _ _ _ Hreq). done.
Qed.

Lemma C2_witness :
  ∃ detail,
    create_announcement Sample.today Sample.id1 Sample.exam (Some "mallory"%string) Sample.three
      = (Raise (HTTPException 401 detail), Sample.three)
    ∧ update_announcement Sample.today "0102030405060708090a0bff" Sample.exam
        (Some "mallory"%string) Sample.three
      = (Raise (HTTPException 401 detail), Sample.three)
    ∧ delete_announcement "0102030405060708090a0bff" (Some "mallory"%string) Sample.three
      = (Raise (HTTPException 401 detail), Sample.three)
    ∧ (Some "mallory"%string = None → detail = "Authentication required for this action"%string)
    ∧ (∀ u, Some "mallory"%string = Some u → u ≠ EmptyString →
         detail = "Invalid teacher credentials"%string).
Proof.
  apply (C2_writes_require_teacher Sample.today Sample.id1 "0102030405060708090a0bff"
           Sample.exam (Some "mallory"%string) Sample.three).
  right. exists "mallory"%string. split; [reflexivity | vm_compute; reflexivity].
Defined.

(** C3: a body whose start_date is present and whose end_date is strictly
    before it is answered 422 by create and by update, and the store is
    not modified. *)
Theorem C3_end_before_start_rejected `{dp : DateParser}
    today new_id announcement_id body username st s :
  start_date body = Some s → date_ltb (end_date body) s = true →
  post_route today new_id body username st = (Raise RequestValidationError, st)
  ∧ put_route today announcement_id body username st = (Raise RequestValidationError, st)
  ∧ http_status (post_route today new_id body username st).1 = 422
  ∧ http_status (put_route today announcement_id body username st).1 = 422.
Proof.
  intros Hs Hlt.
  assert (AnnouncementPayload_validate body = Raise RequestValidationError) as Hv.
  { apply validate_rejects. do 4 right. by exists s. }
  unfold post_route, put_route, lift, mbind, M_bind. by rewrite Hv.
Qed.

Lemma C3_witness :
  post_route Sample.today Sample.id1 Sample.backwards (Some "alice"%string) Sample.three
    = (Raise RequestValidationError, Sample.three)
  ∧ put_route Sample.today "0102030405060708090a0bff" Sample.backwards (Some "alice"%string)
      Sample.three
    = (Raise RequestValidationError, Sample.three)
  ∧ http_status (post_route Sample.today Sample.id1 Sample.backwards (Some "alice"%string)
                   Sample.three).1 = 422
  ∧ http_status (put_route Sample.today "0102030405060708090a0bff" Sample.backwards
                   (Some "alice"%string) Sample.three).1 = 422.
Proof.
  apply (C3_end_before_start_rejected Sample.today Sample.id1 "0102030405060708090a0bff"
           Sample.backwards (Some "alice"%string) Sample.three (mkdate 2099 1 2));
    reflexivity.
Defined.

(** C10: the payload is validated before the credential check: a body
    that breaks a length bound or has its end_date before its start_date is
    answered 422 by create and update whatever teacher_username is (absent,
    unknown or known), with the store untouched; so a 401 is only ever the
    answer to a body that passes validation. *)
Theorem C10_validation_precedes_credentials `{dp : DateParser}
    today new_id announcement_id body username st :
  violates_constraints body →
  post_route today new_id body username st = (Raise RequestValidationError, st)
  ∧ put_route today announcement_id body username st = (Raise RequestValidationError, st)
  ∧ http_status (post_route today new_id body username st).1 = 422
  ∧ http_status (put_route today announcement_id body username st).1 = 422
  ∧ http_status (post_route today new_id body username st).1 ≠ 401
  ∧ http_status (put_route today announcement_id body username st).1 ≠ 401.
Proof.
  intros Hbad. apply validate_rejects in Hbad.
  unfold post_route, put_route, lift, mbind, M_bind. by rewrite Hbad.
Qed.

Lemma C10_witness :
  post_route Sample.today Sample.id1 Sample.untitled None Sample.three
    = (Raise RequestValidationError, Sample.three)
  ∧ put_route Sample.today "0102030405060708090a0bff" Sample.untitled None Sample.three
    = (Raise RequestValidationError, Sample.three)
  ∧ http_status (post_route Sample.today Sample.id1 Sample.untitled None Sample.three).1 = 422
  ∧ http_status (put_route Sample.today "0102030405060708090a0bff" Sample.untitled None
                   Sample.three).1 = 422
  ∧ http_status (post_route Sample.today Sample.id1 Sample.untitled None Sample.three).1 ≠ 401
  ∧ http_status (put_route Sample.today "0102030405060708090a0bff" Sample.untitled None
                   Sample.three).1 ≠ 401.
Proof.
  apply (C10_validation_precedes_credentials Sample.today Sample.id1
           "0102030405060708090a0bff" Sample.untitled None Sample.three).
  left. vm_compute. reflexivity.
Defined.

(** ** Reading the collection *)

Lemma all_stored_spec P st :
  all_stored P st = true
  ↔ ∀ i fields, announcements_collection st !! i = Some fields → P fields = true.
Proof.
  unfold all_stored. rewrite forallb_forall. split.
  - intros H i fields Hi. apply (H (i, fields)).
    by apply list_elem_of_In, elem_of_map_to_list.
  - intros H [i fields] Hin. apply (H i).
    by apply elem_of_map_to_list, list_elem_of_In.
Qed.

Lemma elem_of_all_documents d st :
  d ∈ all_documents st
  ↔ ∃ i fields, announcements_collection st !! i = Some fields ∧ d = with_id (VOid i) fields.
Proof.
  unfold all_documents. rewrite list_elem_of_fmap. split.
  - intros ([i fields] & -> & Hin). exists i, fields.
    split; [by apply elem_of_map_to_list | done].
  - intros (i & fields & Hi & ->). exists (i, fields).
    split; [done | by apply elem_of_map_to_list].
Qed.

Lemma elem_of_sort_by key l d : d ∈ sort_by key l ↔ d ∈ l.
Proof. unfold sort_by. by rewrite merge_sort_Permutation. Qed.

Lemma lookup_with_id i (fields : document) k :
  k ≠ "_id"%string → with_id i fields !! k = fields !! k.
Proof. intros Hk. unfold with_id. by rewrite lookup_insert_ne. Qed.

Lemma well_typed_with_id i fields : well_typed (with_id i fields) = well_typed fields.
Proof. unfold well_typed. by rewrite !lookup_with_id. Qed.

Lemma is_announcement_well_typed fields :
  is_announcement fields = true → well_typed fields = true.
Proof.
  unfold is_announcement, well_typed, iso_date_field, date_field. intros H.
  repeat (apply andb_true_iff in H as [H ?]).
  repeat (apply andb_true_iff; split); try done.
  - by destruct (fields !! "start_date") as [[]|].
  - by destruct (fields !! "end_date") as [[]|].
Qed.

(** On a well-typed document [_doc_to_response] raises nothing, and this
    is the response it builds. *)
Lemma doc_to_response_well_typed `{dp : DateParser} today doc :
  well_typed doc = true →
  _doc_to_response today doc
  = Ok (mkResponse (str (get doc "_id")) (text_of (doc !! "title"))
          (text_of (doc !! "message")) (read_date (doc !! "start_date"))
          (default today (read_date (doc !! "end_date")))).
Proof.
  unfold well_typed, _doc_to_response, get, get_or. intros H.
  repeat (apply andb_true_iff in H as [H ?]).
  destruct (doc !! "title") as [[]|], (doc !! "message") as [[]|]; try done;
    destruct (doc !! "start_date") as [[]|], (doc !! "end_date") as [[]|]; try done;
    unfold _parse_optional_date; simpl; repeat case_bool_decide; subst; reflexivity.
Qed.

Lemma read_date_iso `{dp : DateParser} e :
  reads_back → valid_date e = true → read_date (Some (VStr (isoformat e))) = Some e.
Proof.
  intros Hrb He. cbn [read_date].
  rewrite bool_decide_eq_false_2 by apply isoformat_nonempty. by apply Hrb.
Qed.

(** What the list endpoint answers over a well-typed collection: the
    responses of the documents its filter matches. *)
Lemma list_announcements_spec `{dp : DateParser} today include_expired include_future st :
  all_stored well_typed st = true →
  ∃ rs, list_announcements today include_expired include_future st = (Ok rs, st)
    ∧ ∀ r, r ∈ rs ↔
        ∃ i fields, announcements_collection st !! i = Some fields
          ∧ matches (list_query (isoformat today) include_expired include_future)
              (with_id (VOid i) fields) = true
          ∧ _doc_to_response today (with_id (VOid i) fields) = Ok r.
Proof.
  intros Hst. rewrite all_stored_spec in Hst.
  set (q := list_query (isoformat today) include_expired include_future).
  set (cursor := sort_by "end_date" (filter (λ d, Is_true (matches q d)) (all_documents st))).
  assert (∀ d, d ∈ cursor ↔ ∃ i fields, announcements_collection st !! i = Some fields
            ∧ matches q (with_id (VOid i) fields) = true ∧ d = with_id (VOid i) fields) as Hcur.
  { intros d. unfold cursor. rewrite elem_of_sort_by, list_elem_of_filter, elem_of_all_documents.
    rewrite Is_true_true. split.
    - intros (Hm & i & fields & Hi & ->). by exists i, fields.
    - intros (i & fields & Hi & Hm & ->). split; [done|]. by exists i, fields. }
  destruct (mapM_outcome (_doc_to_response today) cursor) as (rs & Hrs & Hmem).
  { intros d (i & fields & Hi & _ & ->)%Hcur. eexists.
    apply doc_to_response_well_typed. rewrite well_typed_with_id. by apply (Hst i). }
  exists rs. split.
  - unfold list_announcements, find_sorted, lift, mbind, M_bind. fold q. fold cursor.
    by rewrite Hrs.
  - intros r. rewrite Hmem. split.
    + intros (d & (i & fields & Hi & Hm & ->)%Hcur & Hr). by exists i, fields.
    + intros (i & fields & Hi & Hm & Hr). exists (with_id (VOid i) fields).
      split; [|done]. apply Hcur. by exists i, fields.
Qed.

(** ** The filter on stored announcements *)

Lemma gte_iso e t :
  valid_date e = true → valid_date t = true →
  matches_cond (Gte (VStr (isoformat t))) (Some (VStr (isoformat e))) = date_leb t e.
Proof.
  intros He Ht. unfold matches_cond, date_leb. cbn [from_option id bson_compare].
  rewrite (isoformat_compare e t He Ht), (date_compare_antisym t e).
  by destruct (date_compare e t).
Qed.

Lemma lte_iso s t :
  valid_date s = true → valid_date t = true →
  matches_cond (Lte (VStr (isoformat t))) (Some (VStr (isoformat s))) = date_leb s t.
Proof.
  intros Hs Ht. unfold matches_cond, date_leb. cbn [from_option id bson_compare].
  by rewrite (isoformat_compare s t Hs Ht).
Qed.

Lemma iso_date_field_inv v :
  iso_date_field v = true → ∃ e, valid_date e = true ∧ v = Some (VStr (isoformat e)).
Proof.
  destruct v as [[| s |]|]; try done. cbn [iso_date_field].
  intros [e He]%bool_decide_eq_true. apply fromisoformat_strict_inv in He as [Hv ->]. by exists e.
Qed.

Lemma ends_on_unique fields e e' : ends_on fields e → ends_on fields e' → e = e'.
Proof.
  intros [He Hf] [He' Hf']. apply isoformat_inj; [done|done|congruence].
Qed.

Lemma is_announcement_ends_on fields :
  is_announcement fields = true → ∃ e, ends_on fields e.
Proof.
  unfold is_announcement. intros H. apply andb_true_iff in H as [_ H].
  apply iso_date_field_inv in H as (e & He & Hf). by exists e.
Qed.

(** The end-date bound of the filter, on a stored announcement. *)
Lemma matches_end_bound today fields :
  valid_date today = true → is_announcement fields = true →
  matches_cond (Gte (VStr (isoformat today))) (fields !! "end_date") = true
  ↔ ∃ e, ends_on fields e ∧ date_leb today e = true.
Proof.
  intros Ht Hf. destruct (is_announcement_ends_on fields Hf) as (e & He).
  pose proof He as [Hv Hend]. rewrite Hend, gte_iso by done. split.
  - intros Hle. by exists e.
  - intros (e' & He' & Hle). by rewrite (ends_on_unique _ _ _ He He').
Qed.

(** The start-date alternatives of the filter, on a stored announcement. *)
Lemma matches_start_bound today fields :
  valid_date today = true → is_announcement fields = true →
  matches_cond (Exists false) (fields !! "start_date")
  || matches_cond (Equals VNone) (fields !! "start_date")
  || matches_cond (Lte (VStr (isoformat today))) (fields !! "start_date") = true
  ↔ starts fields (λ s, date_leb s today = true).
Proof.
  intros Ht Hf. unfold is_announcement in Hf.
  apply andb_true_iff in Hf as [Hf _]. apply andb_true_iff in Hf as [_ Hs].
  unfold starts. destruct (fields !! "start_date") as [v|] eqn:Hstart.
  - destruct v as [| s | o].
    + split; [intros _; right; by left | done].
    + apply iso_date_field_inv in Hs as (d & Hd & Heqs).
      assert (s = isoformat d) as -> by congruence.
      rewrite lte_iso by done.
      replace (matches_cond (Exists false) (Some (VStr (isoformat d)))) with false by done.
      replace (matches_cond (Equals VNone) (Some (VStr (isoformat d)))) with false by done.
      cbn [orb]. split.
      * intros Hle. right; right. by exists d.
      * intros [?|[?|(d' & Hd' & Heq & Hle)]]; try done.
        rewrite (isoformat_inj d d' Hd Hd'); [done|congruence].
    + done.
  - split; [intros _; by left | done].
Qed.

(** With [include_expired] the filter is empty: as many responses as there
    are stored documents. *)
Lemma list_all_length `{dp : DateParser} today include_future st rs :
  list_announcements today true include_future st = (Ok rs, st) →
  length rs = size (announcements_collection st).
Proof.
  unfold list_announcements, find_sorted, lift, mbind, M_bind. cbn [list_query negb].
  intros [= Hrs]. apply mapM_outcome_length in Hrs. rewrite Hrs.
  unfold sort_by. rewrite merge_sort_Permutation.
  assert (∀ l : list document, filter (λ d, Is_true (matches (Q_and []) d)) l = l) as ->.
  { induction l as [|d l IH]; [done|]. rewrite filter_cons_True by done. by rewrite IH. }
  unfold all_documents. by rewrite length_fmap, length_map_to_list.
Qed.

Lemma matches_default today i fields :
  valid_date today = true → is_announcement fields = true →
  matches (list_query (isoformat today) false false) (with_id (VOid i) fields) = true
  ↔ (∃ e, ends_on fields e ∧ date_leb today e = true)
    ∧ starts fields (λ s, date_leb s today = true).
Proof.
  intros Ht Hf. cbn [list_query negb matches forallb existsb].
  rewrite !lookup_with_id by done. rewrite !andb_true_r, orb_false_r, orb_assoc.
  rewrite andb_true_iff.
  by rewrite (matches_end_bound today fields Ht Hf), (matches_start_bound today fields Ht Hf).
Qed.

Lemma matches_include_future today i fields :
  valid_date today = true → is_announcement fields = true →
  matches (list_query (isoformat today) false true) (with_id (VOid i) fields) = true
  ↔ ∃ e, ends_on fields e ∧ date_leb today e = true.
Proof.
  intros Ht Hf. cbn [list_query negb matches forallb].
  rewrite !lookup_with_id by done. rewrite andb_true_r.
  apply (matches_end_bound today fields Ht Hf).
Qed.

Lemma all_stored_weaken st :
  all_stored is_announcement st = true → all_stored well_typed st = true.
Proof.
  rewrite !all_stored_spec. intros H i fields Hi.
  apply is_announcement_well_typed. by apply (H i).
Qed.

(** The dates in the response of a stored announcement are the stored ones. *)
Lemma response_dates `{dp : DateParser} today i fields r :
  reads_back → is_announcement fields = true →
  _doc_to_response today (with_id (VOid i) fields) = Ok r →
  (∀ e, ends_on fields e → resp_end_date r = e)
  ∧ (∀ P s, starts fields P → resp_start_date r = Some s → P s).
Proof.
  intros Hrb Hf Hr.
  rewrite doc_to_response_well_typed in Hr
    by (rewrite well_typed_with_id; by apply is_announcement_well_typed).
  injection Hr as <-. cbn [resp_end_date resp_start_date].
  rewrite !lookup_with_id by done. split.
  - intros e [He ->]. by rewrite read_date_iso.
  - intros P s [->|[->|(d & Hd & -> & HP)]]; try done.
    rewrite read_date_iso by done. by intros [= <-].
Qed.

(** C1: over a collection of stored announcements, list with both flags
    false returns exactly the announcements whose end_date is on or after
    today and whose start_date is absent, null, or on or before today; no
    returned announcement has an end_date strictly before today or a
    start_date strictly after today. *)
Theorem C1_list_default_is_current `{dp : DateParser} today st :
  reads_back → valid_date today = true → all_stored is_announcement st = true →
  ∃ rs, list_announcements today false false st = (Ok rs, st)
    ∧ (∀ r, r ∈ rs ↔
         ∃ i fields, announcements_collection st !! i = Some fields
           ∧ (∃ e, ends_on fields e ∧ date_leb today e = true)
           ∧ starts fields (λ s, date_leb s today = true)
           ∧ _doc_to_response today (with_id (VOid i) fields) = Ok r)
    ∧ (∀ r, r ∈ rs →
         date_ltb (resp_end_date r) today = false
         ∧ ∀ s, resp_start_date r = Some s → date_ltb today s = false).
Proof.
  intros Hrb Ht Hst. pose proof (proj1 (all_stored_spec _ _) Hst) as Hann.
  destruct (list_announcements_spec today false false st (all_stored_weaken st Hst))
    as (rs & Hrs & Hmem).
  assert (∀ r, r ∈ rs ↔
            ∃ i fields, announcements_collection st !! i = Some fields
              ∧ (∃ e, ends_on fields e ∧ date_leb today e = true)
              ∧ starts fields (λ s, date_leb s today = true)
              ∧ _doc_to_response today (with_id (VOid i) fields) = Ok r) as Hiff.
  { intros r. rewrite Hmem. split.
    - intros (i & fields & Hi & Hm & Hr). exists i, fields.
      apply (matches_default today i fields Ht (Hann i fields Hi)) in Hm as [He Hs]. done.
    - intros (i & fields & Hi & He & Hs & Hr). exists i, fields.
      split; [done|]. split; [|done].
      by apply (matches_default today i fields Ht (Hann i fields Hi)). }
  exists rs. split; [done|]. split; [done|].
  intros r (i & fields & Hi & (e & He & Hle) & Hs & Hr)%Hiff.
  destruct (response_dates today i fields r Hrb (Hann i fields Hi) Hr) as [Hend Hstart].
  split.
  - rewrite (Hend e He). by apply date_leb_not_ltb.
  - intros s Hrs'. apply date_leb_not_ltb.
    by apply (Hstart (λ s, date_leb s today = true) s Hs).
Qed.

Lemma C1_witness :
  ∃ rs, list_announcements Sample.today false false Sample.three = (Ok rs, Sample.three)
    ∧ (∀ r, r ∈ rs ↔
         ∃ i fields, announcements_collection Sample.three !! i = Some fields
           ∧ (∃ e, ends_on fields e ∧ date_leb Sample.today e = true)
           ∧ starts fields (λ s, date_leb s Sample.today = true)
           ∧ _doc_to_response Sample.today (with_id (VOid i) fields) = Ok r)
    ∧ (∀ r, r ∈ rs →
         date_ltb (resp_end_date r) Sample.today = false
         ∧ ∀ s, resp_start_date r = Some s → date_ltb Sample.today s = false).
Proof.
  apply (C1_list_default_is_current Sample.today Sample.three);
    [exact strict_reads_back | reflexivity | vm_compute; reflexivity].
Defined.

(** C6: with include_expired=true, list returns every stored announcement
    once, whatever its end_date and start_date are (and whatever
    include_future is), so its result contains the result of list with both
    flags false. *)
Theorem C6_include_expired_returns_all `{dp : DateParser} today include_future st :
  all_stored well_typed st = true →
  ∃ rs_all rs_default,
    list_announcements today true include_future st = (Ok rs_all, st)
    ∧ list_announcements today false false st = (Ok rs_default, st)
    ∧ length rs_all = size (announcements_collection st)
    ∧ (∀ i fields, announcements_collection st !! i = Some fields →
         ∃ r, _doc_to_response today (with_id (VOid i) fields) = Ok r ∧ r ∈ rs_all)
    ∧ (∀ r, r ∈ rs_all →
         ∃ i fields, announcements_collection st !! i = Some fields
           ∧ _doc_to_response today (with_id (VOid i) fields) = Ok r)
    ∧ (∀ r, r ∈ rs_default → r ∈ rs_all).
Proof.
  intros Hst.
  destruct (list_announcements_spec today true include_future st Hst) as (rs_all & Hall & Hmem).
  destruct (list_announcements_spec today false false st Hst) as (rs_def & Hdef & Hmem').
  exists rs_all, rs_def. split; [done|]. split; [done|].
  split; [by apply (list_all_length today include_future st)|].
  pose proof (proj1 (all_stored_spec _ _) Hst) as Hwt. split; [|split].
  - intros i fields Hi. eexists. split.
    + apply doc_to_response_well_typed. rewrite well_typed_with_id. by apply (Hwt i).
    + apply Hmem. exists i, fields. split; [done|]. split; [done|].
      apply doc_to_response_well_typed. rewrite well_typed_with_id. by apply (Hwt i).
  - intros r (i & fields & Hi & _ & Hr)%Hmem. by exists i, fields.
  - intros r (i & fields & Hi & _ & Hr)%Hmem'. apply Hmem. by exists i, fields.
Qed.

Lemma C6_witness :
  ∃ rs_all rs_default,
    list_announcements Sample.today true false Sample.three = (Ok rs_all, Sample.three)
    ∧ list_announcements Sample.today false false Sample.three = (Ok rs_default, Sample.three)
    ∧ length rs_all = size (announcements_collection Sample.three)
    ∧ (∀ i fields, announcements_collection Sample.three !! i = Some fields →
         ∃ r, _doc_to_response Sample.today (with_id (VOid i) fields) = Ok r ∧ r ∈ rs_all)
    ∧ (∀ r, r ∈ rs_all →
         ∃ i fields, announcements_collection Sample.three !! i = Some fields
           ∧ _doc_to_response Sample.today (with_id (VOid i) fields) = Ok r)
    ∧ (∀ r, r ∈ rs_default → r ∈ rs_all).
Proof.
  apply (C6_include_expired_returns_all Sample.today false Sample.three).
  vm_compute; reflexivity.
Defined.

(** C7: over a collection of stored announcements, list with
    include_future=true and include_expired=false returns exactly the
    announcements whose end_date is on or after today, with no condition on
    start_date: an announcement that has not started yet is returned, an
    expired one is not. *)
Theorem C7_include_future_keeps_end_bound `{dp : DateParser} today st :
  reads_back → valid_date today = true → all_stored is_announcement st = true →
  ∃ rs, list_announcements today false true st = (Ok rs, st)
    ∧ (∀ r, r ∈ rs ↔
         ∃ i fields, announcements_collection st !! i = Some fields
           ∧ (∃ e, ends_on fields e ∧ date_leb today e = true)
           ∧ _doc_to_response today (with_id (VOid i) fields) = Ok r)
    ∧ (∀ r, r ∈ rs → date_ltb (resp_end_date r) today = false).
Proof.
  intros Hrb Ht Hst. pose proof (proj1 (all_stored_spec _ _) Hst) as Hann.
  destruct (list_announcements_spec today false true st (all_stored_weaken st Hst))
    as (rs & Hrs & Hmem).
  assert (∀ r, r ∈ rs ↔
            ∃ i fields, announcements_collection st !! i = Some fields
              ∧ (∃ e, ends_on fields e ∧ date_leb today e = true)
              ∧ _doc_to_response today (with_id (VOid i) fields) = Ok r) as Hiff.
  { intros r. rewrite Hmem. split.
    - intros (i & fields & Hi & Hm & Hr). exists i, fields.
      by apply (matches_include_future today i fields Ht (Hann i fields Hi)) in Hm.
    - intros (i & fields & Hi & He & Hr). exists i, fields.
      split; [done|]. split; [|done].
      by apply (matches_include_future today i fields Ht (Hann i fields Hi)). }
  exists rs. split; [done|]. split; [done|].
  intros r (i & fields & Hi & (e & He & Hle) & Hr)%Hiff.
  destruct (response_dates today i fields r Hrb (Hann i fields Hi) Hr) as [Hend _].
  rewrite (Hend e He). by apply date_leb_not_ltb.
Qed.

Lemma C7_witness :
  ∃ rs, list_announcements Sample.today false true Sample.three = (Ok rs, Sample.three)
    ∧ (∀ r, r ∈ rs ↔
         ∃ i fields, announcements_collection Sample.three !! i = Some fields
           ∧ (∃ e, ends_on fields e ∧ date_leb Sample.today e = true)
           ∧ _doc_to_response Sample.today (with_id (VOid i) fields) = Ok r)
    ∧ (∀ r, r ∈ rs → date_ltb (resp_end_date r) Sample.today = false).
Proof.
  apply (C7_include_future_keeps_end_bound Sample.today Sample.three);
    [exact strict_reads_back | reflexivity | vm_compute; reflexivity].
Defined.

(** C9: a stored document whose end_date is missing, null, empty or a
    string [fromisoformat] rejects is converted to a response whose end_date
    is today, not to an error; a start_date of that kind becomes absent.
    (The document holds strings, nulls or nothing under its fields.) *)
Theorem C9_unreadable_dates_default `{dp : DateParser} today doc :
  well_typed doc = true →
  ∃ r, _doc_to_response today doc = Ok r
    ∧ (unreadable_date (doc !! "end_date") → resp_end_date r = today)
    ∧ (unreadable_date (doc !! "start_date") → resp_start_date r = None).
Proof.
  intros Hwt. eexists. split; [by apply doc_to_response_well_typed|].
  cbn [resp_end_date resp_start_date]. unfold unreadable_date.
  split; intros [->|[->|[->|(s & -> & Hs)]]]; try done;
    cbn [read_date]; rewrite Hs; by case_bool_decide.
Qed.

Lemma C9_witness :
  ∃ r, _doc_to_response Sample.today Sample.garbled = Ok r
    ∧ (unreadable_date (Sample.garbled !! "end_date"%string) → resp_end_date r = Sample.today)
    ∧ (unreadable_date (Sample.garbled !! "start_date"%string) → resp_start_date r = None).
Proof.
  apply (C9_unreadable_dates_default Sample.today Sample.garbled).
  vm_compute; reflexivity.
Defined.

(** ** Writing the collection *)

Lemma serialize_lookup payload :
  _serialize_payload payload !! "title"%string = Some (VStr (strip (title payload)))
  ∧ _serialize_payload payload !! "message"%string = Some (VStr (strip (message payload)))
  ∧ _serialize_payload payload !! "start_date"%string
    = Some (match start_date payload with
            | Some d => VStr (isoformat d)
            | None => VNone
            end)
  ∧ _serialize_payload payload !! "end_date"%string
    = Some (VStr (isoformat (end_date payload))).
Proof. unfold _serialize_payload. by simplify_map_eq. Qed.

(** After a [$set] of a serialized payload the document is well typed,
    whatever it held before. *)
Lemma serialized_well_typed payload (old : document) :
  well_typed (_serialize_payload payload ∪ old) = true.
Proof.
  destruct (serialize_lookup payload) as (Ht & Hm & Hs & He).
  unfold well_typed.
  rewrite (lookup_union_Some_l _ old _ _ Ht), (lookup_union_Some_l _ old _ _ Hm),
    (lookup_union_Some_l _ old _ _ Hs), (lookup_union_Some_l _ old _ _ He).
  by destruct (start_date payload).
Qed.

Lemma not_doc_with_id i fields : not_doc (Some (with_id i fields)) = false.
Proof. cbn [not_doc]. apply bool_decide_eq_false_2, insert_non_empty. Qed.

Lemma create_eval `{dp : DateParser} today new_id payload u t st :
  u ≠ EmptyString → teachers_collection st !! u = Some t →
  announcements_collection st !! new_id = None →
  create_announcement today new_id payload (Some u) st
  = (_doc_to_response today (with_id (VOid new_id) (_serialize_payload payload)),
     mkdb (teachers_collection st)
          (<[new_id := _serialize_payload payload]> (announcements_collection st))).
Proof.
  intros Hu Ht Hfresh. unfold create_announcement.
  rewrite (bind_ok _ _ _ _ _ (require_teacher_known u t st Hu Ht)).
  unfold mbind, M_bind, insert_one, find_one, lift. rewrite Hfresh.
  cbn [announcements_collection]. rewrite lookup_insert_eq.
  cbn [fmap option_fmap option_map]. by rewrite not_doc_with_id.
Qed.

Lemma update_eval `{dp : DateParser} today announcement_id payload u t st :
  u ≠ EmptyString → teachers_collection st !! u = Some t →
  update_announcement today announcement_id payload (Some u) st
  = match ObjectId announcement_id with
    | None => (Raise not_found, st)
    | Some i =>
        match announcements_collection st !! i with
        | None => (Raise not_found, st)
        | Some old =>
            (_doc_to_response today (with_id (VOid i) (_serialize_payload payload ∪ old)),
             mkdb (teachers_collection st)
                  (<[i := _serialize_payload payload ∪ old]> (announcements_collection st)))
        end
    end.
Proof.
  intros Hu Ht. unfold update_announcement.
  rewrite (bind_ok _ _ _ _ _ (require_teacher_known u t st Hu Ht)).
  destruct (ObjectId announcement_id) as [i|]; [|done].
  unfold mbind, M_bind, find_one_and_update, lift.
  destruct (announcements_collection st !! i) as [old|]; [|done].
  by rewrite not_doc_with_id.
Qed.

Lemma delete_eval announcement_id u t st :
  u ≠ EmptyString → teachers_collection st !! u = Some t →
  delete_announcement announcement_id (Some u) st
  = match ObjectId announcement_id with
    | None => (Raise not_found, st)
    | Some i =>
        match announcements_collection st !! i with
        | None => (Raise not_found, st)
        | Some _ =>
            (Ok {[ "message"%string := "Announcement deleted"%string ]},
             mkdb (teachers_collection st) (delete i (announcements_collection st)))
        end
    end.
Proof.
  intros Hu Ht. unfold delete_announcement.
  rewrite (bind_ok _ _ _ _ _ (require_teacher_known u t st Hu Ht)).
  destruct (ObjectId announcement_id) as [i|]; [|done].
  unfold mbind, M_bind, delete_one.
  by destruct (announcements_collection st !! i).
Qed.

(** C5: for a known teacher, update and delete answer 404 exactly when
    the identifier is not a valid ObjectId string or names no stored
    document; so deleting an identifier that names nothing answers 404, and
    deleting the same identifier a second time answers 404. *)
Theorem C5_not_found_exactly_when_absent `{dp : DateParser}
    today announcement_id payload u t st :
  u ≠ EmptyString → teachers_collection st !! u = Some t →
  ((update_announcement today announcement_id payload (Some u) st).1 = Raise not_found
   ↔ names_nothing announcement_id st)
  ∧ (http_status (update_announcement today announcement_id payload (Some u) st).1 = 404
     ↔ names_nothing announcement_id st)
  ∧ ((delete_announcement announcement_id (Some u) st).1 = Raise not_found
     ↔ names_nothing announcement_id st)
  ∧ (http_status (delete_announcement announcement_id (Some u) st).1 = 404
     ↔ names_nothing announcement_id st)
  ∧ (delete_announcement announcement_id (Some u)
       (delete_announcement announcement_id (Some u) st).2).1 = Raise not_found.
Proof.
  intros Hu Ht.
  rewrite (update_eval today announcement_id payload u t st Hu Ht).
  rewrite (delete_eval announcement_id u t st Hu Ht).
  unfold names_nothing.
  destruct (ObjectId announcement_id) as [i|] eqn:Hid.
  - destruct (announcements_collection st !! i) as [old|] eqn:Hi.
    + rewrite doc_to_response_well_typed
        by (rewrite well_typed_with_id; apply serialized_well_typed).
      cbn [fst snd http_status].
      assert (¬ (Some i = None
                 ∨ ∃ j, Some i = Some j ∧ announcements_collection st !! j = None)) as Hno.
      { intros [?|(j & [= <-] & Hj)]; congruence. }
      split_and!; try (split; [done | intros H; by destruct Hno]).
      rewrite (delete_eval announcement_id u t
                 (mkdb (teachers_collection st) (delete i (announcements_collection st)))
                 Hu Ht), Hid.
      cbn [announcements_collection]. by rewrite lookup_delete_eq.
    + cbn [fst snd http_status not_found].
      assert (Some i = None
              ∨ ∃ j, Some i = Some j ∧ announcements_collection st !! j = None) as Hyes.
      { right. by exists i. }
      split_and!; try (split; [by intros _ | done]).
      by rewrite (delete_eval announcement_id u t st Hu Ht), Hid, Hi.
  - cbn [fst snd http_status not_found].
    assert (@None oid = None
            ∨ ∃ j, None = Some j ∧ announcements_collection st !! j = None) as Hyes.
    { by left. }
    split_and!; try (split; [by intros _ | done]).
    by rewrite (delete_eval announcement_id u t st Hu Ht), Hid.
Qed.

Lemma C5_witness :
  ((update_announcement Sample.today "0102030405060708090a0bff" Sample.exam
      (Some "alice"%string) Sample.three).1 = Raise not_found
   ↔ names_nothing "0102030405060708090a0bff" Sample.three)
  ∧ (http_status (update_announcement Sample.today "0102030405060708090a0bff" Sample.exam
                    (Some "alice"%string) Sample.three).1 = 404
     ↔ names_nothing "0102030405060708090a0bff" Sample.three)
  ∧ ((delete_announcement "0102030405060708090a0bff" (Some "alice"%string) Sample.three).1
     = Raise not_found
     ↔ names_nothing "0102030405060708090a0bff" Sample.three)
  ∧ (http_status (delete_announcement "0102030405060708090a0bff" (Some "alice"%string)
                    Sample.three).1 = 404
     ↔ names_nothing "0102030405060708090a0bff" Sample.three)
  ∧ (delete_announcement "0102030405060708090a0bff" (Some "alice"%string)
       (delete_announcement "0102030405060708090a0bff" (Some "alice"%string)
          Sample.three).2).1 = Raise not_found.
Proof.
  apply (C5_not_found_exactly_when_absent Sample.today "0102030405060708090a0bff"
           Sample.exam "alice" ∅ Sample.three).
  - vm_compute. discriminate.
  - vm_compute. reflexivity.
Defined.

(** C8: for a body within the length bounds whose start_date is absent or
    not after its end_date, sent by a known teacher, create succeeds; the
    response carries the identifier the store assigned, the dates are stored
    as their ISO strings and the response gives back the dates of the body.
    ([new_id], the identifier the driver generates, is not in use yet.) *)
Theorem C8_create_round_trips_dates `{dp : DateParser} today new_id body u t st :
  reads_back →
  1 <= len (title body) <= 120 → 1 <= len (message body) <= 800 →
  valid_date (end_date body) = true →
  (∀ s, start_date body = Some s →
        valid_date s = true ∧ date_leb s (end_date body) = true) →
  u ≠ EmptyString → teachers_collection st !! u = Some t →
  announcements_collection st !! new_id = None →
  ∃ r st',
    post_route today new_id body (Some u) st = (Ok r, st')
    ∧ announcements_collection st' !! new_id = Some (_serialize_payload body)
    ∧ resp_id r = str (VOid new_id)
    ∧ _serialize_payload body !! "end_date"%string = Some (VStr (isoformat (end_date body)))
    ∧ _serialize_payload body !! "start_date"%string
      = Some (match start_date body with Some d => VStr (isoformat d) | None => VNone end)
    ∧ resp_end_date r = end_date body
    ∧ resp_start_date r = start_date body.
Proof.
  intros Hrb Htitle Hmsg Hend Hstart Hu Ht Hfresh.
  destruct (serialize_lookup body) as (Hlt & Hlm & Hls & Hle).
  unfold post_route. rewrite validate_accepts; [|done|done|].
  2:{ intros s Hs. apply date_leb_not_ltb. by apply Hstart. }
  unfold lift at 1, mbind at 1, M_bind at 1.
  rewrite (create_eval today new_id body u t st Hu Ht Hfresh).
  rewrite doc_to_response_well_typed.
  2:{ rewrite well_typed_with_id, <- (map_union_empty (_serialize_payload body)).
      apply serialized_well_typed. }
  eexists _, _. split; [done|].
  cbn [announcements_collection resp_id resp_end_date resp_start_date].
  rewrite lookup_insert_eq, !lookup_with_id by done.
  rewrite Hle, Hls, read_date_iso by done.
  split_and!; try done.
  destruct (start_date body) as [s|] eqn:Hs; [|done].
  apply read_date_iso; [done | by apply (Hstart s)].
Qed.

Lemma C8_witness :
  ∃ r st',
    post_route Sample.today Sample.id3 Sample.upcoming (Some "alice"%string) Sample.empty_db
      = (Ok r, st')
    ∧ announcements_collection st' !! Sample.id3 = Some (_serialize_payload Sample.upcoming)
    ∧ resp_id r = str (VOid Sample.id3)
    ∧ _serialize_payload Sample.upcoming !! "end_date"%string
      = Some (VStr (isoformat (end_date Sample.upcoming)))
    ∧ _serialize_payload Sample.upcoming !! "start_date"%string
      = Some (match start_date Sample.upcoming with
              | Some d => VStr (isoformat d)
              | None => VNone
              end)
    ∧ resp_end_date r = end_date Sample.upcoming
    ∧ resp_start_date r = start_date Sample.upcoming.
Proof.
  apply (C8_create_round_trips_dates Sample.today Sample.id3 Sample.upcoming "alice" ∅
           Sample.empty_db).
  - exact strict_reads_back.
  - vm_compute. split; discriminate.
  - vm_compute. split; discriminate.
  - reflexivity.
  - intros s [= <-]. split; reflexivity.
  - discriminate.
  - vm_compute. reflexivity.
  - vm_compute. reflexivity.
Defined.

(** ** Trimming *)

Lemma lstrip_length s : (String.length (lstrip s) <= String.length s)%nat.
Proof. induction s as [|c s IH]; simpl; [lia|]. destruct (isspace c); simpl; lia. Qed.

Lemma rstrip_length s : (String.length (rstrip s) <= String.length s)%nat.
Proof.
  induction s as [|c s IH]; simpl; [lia|].
  destruct (rstrip s); [destruct (isspace c)|]; simpl in *; lia.
Qed.

Lemma strip_len s : 0 <= len (strip s) <= len s.
Proof.
  unfold len, strip. pose proof (rstrip_length (lstrip s)). pose proof (lstrip_length s). lia.
Qed.

(** What validation does guarantee about the stored text: the upper bounds. *)
Lemma serialized_lengths_upper body payload :
  AnnouncementPayload_validate body = Ok payload →
  ∃ t m, _serialize_payload payload !! "title"%string = Some (VStr t)
    ∧ _serialize_payload payload !! "message"%string = Some (VStr m)
    ∧ 0 <= len t <= 120 ∧ 0 <= len m <= 800.
Proof.
  unfold AnnouncementPayload_validate. intros H.
  destruct (_ && _) eqn:E; [|done].
  destruct (validate_end_date _ _); [|done]. injection H as <-.
  repeat (apply andb_true_iff in E as [E ?]).
  destruct (serialize_lookup body) as (Ht & Hm & _ & _).
  exists (strip (title body)), (strip (message body)).
  pose proof (strip_len (title body)). pose proof (strip_len (message body)).
  split_and!; try done; lia.
Qed.

(** C4 (the code breaks it): a title made of one space passes the length
    bound of the payload model, is trimmed afterwards, and create and update
    both write a document whose title has 0 characters. *)
Theorem C4_blank_title_is_stored_empty :
  AnnouncementPayload_validate Sample.blank = Ok Sample.blank
  ∧ (∃ r st' fields,
       post_route Sample.today Sample.id1 Sample.blank (Some "alice"%string) Sample.empty_db
         = (Ok r, st')
       ∧ announcements_collection st' !! Sample.id1 = Some fields
       ∧ fields !! "title"%string = Some (VStr EmptyString)
       ∧ len EmptyString = 0)
  ∧ (∃ r st' fields,
       put_route Sample.today "0102030405060708090a0bff" Sample.blank (Some "alice"%string)
         Sample.three = (Ok r, st')
       ∧ announcements_collection st' !! Sample.id1 = Some fields
       ∧ fields !! "title"%string = Some (VStr EmptyString)
       ∧ len EmptyString = 0).
Proof.
  split; [reflexivity|]. split.
  - eexists _, _, _. split; [vm_compute; reflexivity|].
    split; [vm_compute; reflexivity|]. split; vm_compute; reflexivity.
  - eexists _, _, _. split; [vm_compute; reflexivity|].
    split; [vm_compute; reflexivity|]. split; vm_compute; reflexivity.
Qed.

(** ** The writes keep the collection a collection of announcements *)

Lemma serialized_is_announcement payload (old : document) :
  valid_date (end_date payload) = true →
  (∀ s, start_date payload = Some s → valid_date s = true) →
  is_announcement (_serialize_payload payload ∪ old) = true.
Proof.
  intros He Hs. destruct (serialize_lookup payload) as (Ht & Hm & Hst & Hen).
  unfold is_announcement.
  rewrite (lookup_union_Some_l _ old _ _ Ht), (lookup_union_Some_l _ old _ _ Hm),
    (lookup_union_Some_l _ old _ _ Hst), (lookup_union_Some_l _ old _ _ Hen).
  cbn [text_field andb iso_date_field].
  rewrite (fromisoformat_strict_isoformat _ He).
  destruct (start_date payload) as [s|]; [|done].
  cbn [iso_date_field]. by rewrite (fromisoformat_strict_isoformat s (Hs s eq_refl)).
Qed.

Lemma writes_keep_announcements `{dp : DateParser}
    today new_id announcement_id payload username st :
  valid_date (end_date payload) = true →
  (∀ s, start_date payload = Some s → valid_date s = true) →
  all_stored is_announcement st = true →
  all_stored is_announcement (create_announcement today new_id payload username st).2 = true
  ∧ all_stored is_announcement
      (update_announcement today announcement_id payload username st).2 = true
  ∧ all_stored is_announcement (delete_announcement announcement_id username st).2 = true.
Proof.
  intros He Hs Hst.
  pose proof (serialized_is_announcement payload ∅ He Hs) as Hnew.
  rewrite map_union_empty in Hnew.
  unfold create_announcement, update_announcement, delete_announcement.
  destruct (_require_teacher username st) as [[teacher|e] st1] eqn:Hreq.
  - assert (st1 = st) as ->.
    { unfold _require_teacher in Hreq. destruct (not_str username); [done|].
      unfold mbind, M_bind, teachers_find_one in Hreq.
      destruct (not_doc _); by injection Hreq. }
    rewrite !(bind_ok _ _ _ _ _ Hreq). rewrite all_stored_spec in Hst. split_and!.
    + unfold mbind, M_bind, insert_one, find_one, lift.
      destruct (announcements_collection st !! new_id) eqn:Hid;
        [by apply all_stored_spec|].
      cbn [announcements_collection]. rewrite lookup_insert_eq.
      cbn [fmap option_fmap option_map]. rewrite not_doc_with_id. cbn [snd].
      apply all_stored_spec. intros i fields. cbn [announcements_collection].
      rewrite lookup_insert. case_decide; [by intros [= <-] | apply Hst].
    + destruct (ObjectId announcement_id) as [i|]; [|by apply all_stored_spec].
      unfold mbind, M_bind, find_one_and_update, lift.
      destruct (announcements_collection st !! i) as [old|] eqn:Hi;
        [|by apply all_stored_spec].
      rewrite not_doc_with_id. cbn [snd].
      apply all_stored_spec. intros j fields. cbn [announcements_collection].
      rewrite lookup_insert. case_decide; [|apply Hst].
      intros [= <-]. by apply serialized_is_announcement.
    + destruct (ObjectId announcement_id) as [i|]; [|by apply all_stored_spec].
      unfold mbind, M_bind, delete_one.
      destruct (announcements_collection st !! i) as [old|] eqn:Hi;
        [|by apply all_stored_spec].
      cbn [Z.eqb]. unfold mret, M_ret. cbn [snd]. apply all_stored_spec. intros j fields.
      cbn [announcements_collection]. rewrite lookup_delete.
      case_decide; [done | apply Hst].
  - assert (st1 = st) as ->.
    { unfold _require_teacher in Hreq. destruct (not_str username); [by injection Hreq|].
      unfold mbind, M_bind, teachers_find_one in Hreq.
      destruct (not_doc _); by injection Hreq. }
    by rewrite !(bind_raise _ _ _ _ _ Hreq).
Qed.

(** ** Worked requests *)

Example isoformat_ex : isoformat (mkdate 2099 1 1) = "2099-01-01"%string.
Proof. reflexivity. Qed.

Example fromisoformat_ex : fromisoformat_strict "2024-02-29" = Some (mkdate 2024 2 29).
Proof. reflexivity. Qed.

Example fromisoformat_rejects :
  fromisoformat_strict "2023-02-29" = None ∧ fromisoformat_strict "2023-2-9" = None
  ∧ fromisoformat_strict "0000-01-01" = None ∧ fromisoformat_strict EmptyString = None.
Proof. by vm_compute. Qed.

Example strip_ex : strip "  Exam week " = "Exam week"%string ∧ strip "   " = EmptyString.
Proof. by vm_compute. Qed.

Example ObjectId_ex :
  ObjectId "0102030405060708090A0Bff" = Some Sample.id1
  ∧ str (VOid Sample.id1) = "0102030405060708090a0bff"%string
  ∧ ObjectId "exam" = None ∧ ObjectId "0102030405060708090a0bfg" = None.
Proof. by vm_compute. Qed.

(** Create without a credential answers 401; with one it answers 200 and
    a non-empty id. *)
Example create_exam :
  http_status (post_route Sample.today Sample.id1 Sample.exam None Sample.empty_db).1 = 401
  ∧ (post_route Sample.today Sample.id1 Sample.exam (Some "alice"%string) Sample.empty_db).1
    = Ok (mkResponse "0102030405060708090a0bff" "Exam" "Midterm Friday" None
            (mkdate 2099 1 1)).
Proof. by vm_compute. Qed.

(** The three listings of the sample collection: the current announcement
    only; all three, ordered by end date; the current and the upcoming one. *)
Example list_three :
  resp_title <$> default [] (match (list_announcements Sample.today false false Sample.three).1
                             with Ok rs => Some rs | Raise _ => None end)
    = ["Exam"%string]
  ∧ resp_title <$> default [] (match (list_announcements Sample.today true false Sample.three).1
                               with Ok rs => Some rs | Raise _ => None end)
    = ["Old"%string; "Fair"%string; "Exam"%string]
  ∧ resp_title <$> default [] (match (list_announcements Sample.today false true Sample.three).1
                               with Ok rs => Some rs | Raise _ => None end)
    = ["Fair"%string; "Exam"%string].
Proof. by vm_compute. Qed.

(** An update changes the title the next listing shows. *)
Example update_exam :
  resp_title <$> default []
    (match (list_announcements Sample.today false false
              (put_route Sample.today "0102030405060708090a0bff"
                 (mkPayload "Final Exam" "Midterm Friday" None (mkdate 2099 1 1))
                 (Some "alice"%string) Sample.three).2).1
     with Ok rs => Some rs | Raise _ => None end)
  = ["Final Exam"%string].
Proof. by vm_compute. Qed.

(** A value of another type under a date field is not caught by
    [_parse_optional_date]: the conversion raises. *)
Example doc_to_response_type_error :
  _doc_to_response Sample.today {[ "end_date"%string := VOid Sample.id1 ]} = Raise TypeError.
Proof. by vm_compute. Qed.

(** * Further properties of the router *)

(** ** The payload model, exactly *)

Lemma validate_cases body :
  AnnouncementPayload_validate body = Ok body
  ∨ AnnouncementPayload_validate body = Raise RequestValidationError.
Proof.
  unfold AnnouncementPayload_validate, validate_end_date.
  destruct (_ && _); [|by right].
  destruct (start_date body) as [s|]; [|by left].
  destruct (date_ltb (end_date body) s); [by right | by left].
Qed.

(** X1: the payload model accepts a body exactly when title has 1 to 120
    characters, message has 1 to 800 characters and start_date is absent or
    not after end_date (equal dates are accepted); an accepted body is
    passed on as it is, untrimmed; every other body is rejected with the
    validation error. *)
Theorem X1_payload_accepted_exactly body :
  (AnnouncementPayload_validate body = Ok body
   ↔ 1 <= len (title body) <= 120 ∧ 1 <= len (message body) <= 800
     ∧ ∀ s, start_date body = Some s → date_ltb (end_date body) s = false)
  ∧ (AnnouncementPayload_validate body = Ok body
     ∨ AnnouncementPayload_validate body = Raise RequestValidationError)
  ∧ validate_end_date (end_date body) (Some (end_date body)) = Some (end_date body).
Proof.
  split_and!.
  - split.
    + unfold AnnouncementPayload_validate, validate_end_date. intros H.
      destruct (_ && _) eqn:E; [|done].
      repeat (apply andb_true_iff in E as [E ?]).
      split; [lia|]. split; [lia|]. intros s Hs. rewrite Hs in H.
      by destruct (date_ltb (end_date body) s).
    + intros (Ht & Hm & Hs). by apply validate_accepts.
  - unfold AnnouncementPayload_validate, validate_end_date.
    destruct (_ && _); [|by right].
    destruct (start_date body) as [s|]; [|by left].
    destruct (date_ltb (end_date body) s); [by right | by left].
  - unfold validate_end_date.
    assert (date_ltb (end_date body) (end_date body) = false) as ->; [|done].
    unfold date_ltb, date_compare. by rewrite !Z.compare_refl.
Qed.

(** ** The teacher check, exactly *)

Lemma require_teacher_cases username st :
  (∃ u t, username = Some u ∧ u ≠ EmptyString ∧ teachers_collection st !! u = Some t
          ∧ _require_teacher username st = (Ok (with_id (VStr u) t), st))
  ∨ (∃ detail, _require_teacher username st = (Raise (HTTPException 401 detail), st)
               ∧ (username = None
                  ∨ ∃ u, username = Some u
                         ∧ (u = EmptyString ∨ teachers_collection st !! u = None))).
Proof.
  destruct username as [u|].
  - destruct (decide (u = EmptyString)) as [->|Hu].
    + right. eexists. split; [done|]. right. exists EmptyString. split; [done|by left].
    + destruct (teachers_collection st !! u) as [t|] eqn:Ht.
      * left. exists u, t. split_and!; try done. by apply require_teacher_known.
      * right. rewrite (require_teacher_unknown u st Ht).
        rewrite bool_decide_eq_false_2 by done. eexists. split; [done|].
        right. exists u. split; [done|by right].
  - right. eexists. split; [apply require_teacher_none|by left].
Qed.

(** The check reads the teacher directory only. *)
Lemma require_teacher_frame username st anns :
  _require_teacher username (mkdb (teachers_collection st) anns)
  = ((_require_teacher username st).1, mkdb (teachers_collection st) anns).
Proof.
  unfold _require_teacher. destruct (not_str username); [done|].
  unfold mbind, M_bind, teachers_find_one. cbn [teachers_collection].
  by destruct (not_doc _).
Qed.

(** X2: the teacher check succeeds exactly for a non-empty username that
    is a key of the teacher directory, and then returns that teacher's
    document; otherwise it answers 401; in no case does it change the
    store. *)
Theorem X2_teacher_check_exactly username st :
  (_require_teacher username st).2 = st
  ∧ (∀ doc, (_require_teacher username st).1 = Ok doc
            ↔ ∃ u t, username = Some u ∧ u ≠ EmptyString
                     ∧ teachers_collection st !! u = Some t ∧ doc = with_id (VStr u) t)
  ∧ ((∃ doc, (_require_teacher username st).1 = Ok doc)
     ∨ http_status (_require_teacher username st).1 = 401).
Proof.
  destruct (require_teacher_cases username st)
    as [(u & t & -> & Hu & Ht & Hreq)|(detail & Hreq & Hwhy)]; rewrite Hreq; cbn [fst snd].
  - split; [done|]. split; [|left; by eexists].
    intros doc. split.
    + intros [= <-]. by exists u, t.
    + intros (u' & t' & [= <-] & _ & Ht' & ->). congruence.
  - split; [done|]. split; [|by right].
    intros doc. split; [done|].
    intros (u & t & -> & Hu & Ht & _).
    destruct Hwhy as [?|(u' & [= <-] & [?|?])]; congruence.
Qed.

(** ** Trimming, continued *)

Lemma lstrip_no_leading_space s : starts_with_space (lstrip s) = false.
Proof.
  induction s as [|c s IH]; [done|]. cbn [lstrip].
  destruct (isspace c) eqn:E; [done|]. cbn [starts_with_space]. done.
Qed.

Lemma rstrip_keeps_start s :
  starts_with_space s = false → starts_with_space (rstrip s) = false.
Proof.
  destruct s as [|c r]; [done|]. cbn [starts_with_space rstrip]. intros Hc.
  destruct (rstrip r); [by rewrite Hc|done].
Qed.

Lemma rstrip_no_trailing_space s : ends_with_space (rstrip s) = false.
Proof.
  induction s as [|c s IH]; [done|]. cbn [rstrip].
  destruct (rstrip s) as [|c' r'] eqn:E.
  - destruct (isspace c) eqn:Hc; [done|]. cbn [ends_with_space]. done.
  - done.
Qed.

Lemma lstrip_id s : starts_with_space s = false → lstrip s = s.
Proof. destruct s as [|c r]; [done|]. cbn [starts_with_space lstrip]. by intros ->. Qed.

Lemma rstrip_id s : ends_with_space s = false → rstrip s = s.
Proof.
  induction s as [|c s IH]; [done|]. intros H. cbn [rstrip].
  destruct s as [|c' r'].
  - cbn [ends_with_space] in H. cbn [rstrip]. by rewrite H.
  - rewrite IH by done. done.
Qed.

(** X4: the title and the message written to the store neither begin nor
    end with whitespace, and trimming them again changes nothing: sending
    back a stored text stores the same text. *)
Theorem X4_stored_text_is_trimmed payload :
  ∃ t m,
    _serialize_payload payload !! "title"%string = Some (VStr t)
    ∧ _serialize_payload payload !! "message"%string = Some (VStr m)
    ∧ starts_with_space t = false ∧ ends_with_space t = false
    ∧ starts_with_space m = false ∧ ends_with_space m = false
    ∧ strip t = t ∧ strip m = m.
Proof.
  destruct (serialize_lookup payload) as (Ht & Hm & _ & _).
  assert (∀ s, starts_with_space (strip s) = false) as Hl.
  { intros s. apply rstrip_keeps_start, lstrip_no_leading_space. }
  assert (∀ s, ends_with_space (strip s) = false) as Hr.
  { intros s. apply rstrip_no_trailing_space. }
  assert (∀ s, strip (strip s) = strip s) as Hid.
  { intros s. unfold strip at 1. by rewrite lstrip_id, rstrip_id. }
  exists (strip (title payload)), (strip (message payload)). by split_and!.
Qed.

(** ** What the writing endpoints do to the store *)

Lemma doc_to_response_serialized_ok `{dp : DateParser} today i payload (old : document) :
  ∃ r, _doc_to_response today (with_id (VOid i) (_serialize_payload payload ∪ old)) = Ok r
       ∧ resp_id r = hexlify (binary i)
       ∧ resp_title r = strip (title payload)
       ∧ resp_message r = strip (message payload).
Proof.
  destruct (serialize_lookup payload) as (Ht & Hm & _ & _).
  eexists. split.
  - apply doc_to_response_well_typed. rewrite well_typed_with_id. apply serialized_well_typed.
  - cbn [resp_id resp_title resp_message]. rewrite !lookup_with_id by done.
    rewrite (lookup_union_Some_l _ old _ _ Ht), (lookup_union_Some_l _ old _ _ Hm).
    split_and!; try done. unfold get, with_id. by rewrite lookup_insert_eq.
Qed.

Lemma post_route_cases `{dp : DateParser} today new_id body username st :
  (∃ e, post_route today new_id body username st = (Raise e, st))
  ∨ (∃ r, post_route today new_id body username st
          = (Ok r, mkdb (teachers_collection st)
                        (<[new_id := _serialize_payload body]> (announcements_collection st)))
          ∧ announcements_collection st !! new_id = None
          ∧ AnnouncementPayload_validate body = Ok body).
Proof.
  destruct (validate_cases body) as [Hv|Hv].
  2:{ left. exists RequestValidationError.
      unfold post_route, lift, mbind, M_bind. by rewrite Hv. }
  assert (post_route today new_id body username st
          = create_announcement today new_id body username st) as ->.
  { unfold post_route, lift. unfold mbind at 1, M_bind at 1. by rewrite Hv. }
  destruct (require_teacher_cases username st)
    as [(u & t & -> & Hu & Ht & Hreq)|(detail & Hreq & _)].
  - destruct (announcements_collection st !! new_id) as [d|] eqn:Hid.
    + left. exists DuplicateKeyError. unfold create_announcement.
      rewrite (bind_ok _ _ _ _ _ Hreq). unfold mbind, M_bind, insert_one. by rewrite Hid.
    + right. rewrite (create_eval today new_id body u t st Hu Ht Hid).
      destruct (doc_to_response_serialized_ok today new_id body ∅) as (r & Hr & _).
      rewrite map_union_empty in Hr. rewrite Hr. by exists r.
  - left. eexists. unfold create_announcement. by rewrite (bind_raise _ _ _ _ _ Hreq).
Qed.

Lemma put_route_cases `{dp : DateParser} today announcement_id body username st :
  (∃ e, put_route today announcement_id body username st = (Raise e, st))
  ∨ (∃ r i old,
       ObjectId announcement_id = Some i
       ∧ announcements_collection st !! i = Some old
       ∧ _doc_to_response today (with_id (VOid i) (_serialize_payload body ∪ old)) = Ok r
       ∧ put_route today announcement_id body username st
         = (Ok r, mkdb (teachers_collection st)
                       (<[i := _serialize_payload body ∪ old]> (announcements_collection st)))).
Proof.
  destruct (validate_cases body) as [Hv|Hv].
  2:{ left. exists RequestValidationError.
      unfold put_route, lift, mbind, M_bind. by rewrite Hv. }
  assert (put_route today announcement_id body username st
          = update_announcement today announcement_id body username st) as ->.
  { unfold put_route, lift. unfold mbind at 1, M_bind at 1. by rewrite Hv. }
  destruct (require_teacher_cases username st)
    as [(u & t & -> & Hu & Ht & Hreq)|(detail & Hreq & _)].
  - rewrite (update_eval today announcement_id body u t st Hu Ht).
    destruct (ObjectId announcement_id) as [i|]; [|left; by eexists].
    destruct (announcements_collection st !! i) as [old|] eqn:Hi; [|left; by eexists].
    right. destruct (doc_to_response_serialized_ok today i body old) as (r & Hr & _).
    exists r, i, old. by rewrite Hr.
  - left. eexists. unfold update_announcement. by rewrite (bind_raise _ _ _ _ _ Hreq).
Qed.

Lemma delete_cases announcement_id username st :
  (∃ e, delete_announcement announcement_id username st = (Raise e, st))
  ∨ (∃ i old,
       ObjectId announcement_id = Some i
       ∧ announcements_collection st !! i = Some old
       ∧ delete_announcement announcement_id username st
         = (Ok deleted, mkdb (teachers_collection st) (delete i (announcements_collection st)))).
Proof.
  destruct (require_teacher_cases username st)
    as [(u & t & -> & Hu & Ht & Hreq)|(detail & Hreq & _)].
  - rewrite (delete_eval announcement_id u t st Hu Ht).
    destruct (ObjectId announcement_id) as [i|]; [|left; by eexists].
    destruct (announcements_collection st !! i) as [old|] eqn:Hi; [|left; by eexists].
    right. by exists i, old.
  - left. eexists. unfold delete_announcement. by rewrite (bind_raise _ _ _ _ _ Hreq).
Qed.

(** X3: writing a payload and reading the document back gives the
    payload's own dates, its trimmed title and message, and the hexadecimal
    form of the identifier, whatever else the document held before. *)
Theorem X3_serialize_then_read_back `{dp : DateParser} today i payload (old : document) :
  reads_back → valid_date (end_date payload) = true →
  (∀ s, start_date payload = Some s → valid_date s = true) →
  _doc_to_response today (with_id (VOid i) (_serialize_payload payload ∪ old))
  = Ok (mkResponse (hexlify (binary i)) (strip (title payload)) (strip (message payload))
          (start_date payload) (end_date payload)).
Proof.
  intros Hrb He Hs. destruct (serialize_lookup payload) as (Hlt & Hlm & Hls & Hle).
  rewrite doc_to_response_well_typed
    by (rewrite well_typed_with_id; apply serialized_well_typed).
  rewrite !lookup_with_id by done.
  rewrite (lookup_union_Some_l _ old _ _ Hlt), (lookup_union_Some_l _ old _ _ Hlm),
    (lookup_union_Some_l _ old _ _ Hls), (lookup_union_Some_l _ old _ _ Hle).
  rewrite read_date_iso by done. unfold get, with_id.
  rewrite lookup_insert_eq. cbn [text_of default from_option id str].
  do 2 f_equal. destruct (start_date payload) as [s|] eqn:Hstart; [|done].
  apply read_date_iso; [done | by apply Hs].
Qed.

Lemma X3_witness :
  _doc_to_response Sample.today
    (with_id (VOid Sample.id2) (_serialize_payload Sample.expired ∪ Sample.garbled))
  = Ok (mkResponse (hexlify (binary Sample.id2)) (strip (title Sample.expired))
          (strip (message Sample.expired)) (start_date Sample.expired)
          (end_date Sample.expired)).
Proof.
  apply (X3_serialize_then_read_back Sample.today Sample.id2 Sample.expired Sample.garbled).
  - exact strict_reads_back.
  - reflexivity.
  - intros s [= <-]. reflexivity.
Defined.

(** X5: a create by a known teacher, with an identifier not in use, adds
    exactly one document, the serialized payload under the new identifier:
    every other document and the teacher directory are as before, and the
    response carries the identifier and the trimmed texts. *)
Theorem X5_create_adds_one_document `{dp : DateParser} today new_id payload u t st :
  u ≠ EmptyString → teachers_collection st !! u = Some t →
  announcements_collection st !! new_id = None →
  ∃ r st',
    create_announcement today new_id payload (Some u) st = (Ok r, st')
    ∧ announcements_collection st' !! new_id = Some (_serialize_payload payload)
    ∧ (∀ j, j ≠ new_id →
         announcements_collection st' !! j = announcements_collection st !! j)
    ∧ size (announcements_collection st') = S (size (announcements_collection st))
    ∧ teachers_collection st' = teachers_collection st
    ∧ resp_id r = hexlify (binary new_id)
    ∧ resp_title r = strip (title payload)
    ∧ resp_message r = strip (message payload).
Proof.
  intros Hu Ht Hfresh. rewrite (create_eval today new_id payload u t st Hu Ht Hfresh).
  destruct (doc_to_response_serialized_ok today new_id payload ∅) as (r & Hr & Hid & Htt & Hm).
  rewrite map_union_empty in Hr. rewrite Hr.
  eexists _, _. split; [done|]. cbn [announcements_collection teachers_collection].
  split_and!; try done.
  - by rewrite lookup_insert_eq.
  - intros j Hj. by rewrite lookup_insert_ne.
  - by rewrite map_size_insert_None.
Qed.

Lemma X5_witness :
  ∃ r st',
    create_announcement Sample.today Sample.id1 Sample.blank (Some "alice"%string)
      Sample.empty_db = (Ok r, st')
    ∧ announcements_collection st' !! Sample.id1 = Some (_serialize_payload Sample.blank)
    ∧ (∀ j, j ≠ Sample.id1 →
         announcements_collection st' !! j = announcements_collection Sample.empty_db !! j)
    ∧ size (announcements_collection st')
      = S (size (announcements_collection Sample.empty_db))
    ∧ teachers_collection st' = teachers_collection Sample.empty_db
    ∧ resp_id r = hexlify (binary Sample.id1)
    ∧ resp_title r = strip (title Sample.blank)
    ∧ resp_message r = strip (message Sample.blank).
Proof.
  apply (X5_create_adds_one_document Sample.today Sample.id1 Sample.blank "alice" ∅
           Sample.empty_db).
  - discriminate.
  - vm_compute. reflexivity.
  - vm_compute. reflexivity.
Defined.


(** X7: an update by a known teacher of an identifier that names a
    document sets the four payload fields of that document and keeps every
    other field it had; the identifier stays, no document is added, every
    other document and the teacher directory are as before. *)
Theorem X7_update_sets_payload_fields `{dp : DateParser}
    today announcement_id payload u t st i old :
  u ≠ EmptyString → teachers_collection st !! u = Some t →
  ObjectId announcement_id = Some i → announcements_collection st !! i = Some old →
  ∃ r st' new,
    update_announcement today announcement_id payload (Some u) st = (Ok r, st')
    ∧ announcements_collection st' !! i = Some new
    ∧ (∀ k, k ∈ payload_fields → new !! k = _serialize_payload payload !! k)
    ∧ (∀ k, k ∉ payload_fields → new !! k = old !! k)
    ∧ (∀ j, j ≠ i → announcements_collection st' !! j = announcements_collection st !! j)
    ∧ dom (announcements_collection st') = dom (announcements_collection st)
    ∧ teachers_collection st' = teachers_collection st
    ∧ resp_id r = hexlify (binary i)
    ∧ resp_title r = strip (title payload)
    ∧ resp_message r = strip (message payload).
Proof.
  intros Hu Ht Hid Hi. rewrite (update_eval today announcement_id payload u t st Hu Ht), Hid, Hi.
  destruct (doc_to_response_serialized_ok today i payload old) as (r & Hr & Hrid & Htt & Hm).
  rewrite Hr. destruct (serialize_lookup payload) as (Hlt & Hlm & Hls & Hle).
  exists r, (mkdb (teachers_collection st)
               (<[i := _serialize_payload payload ∪ old]> (announcements_collection st))),
    (_serialize_payload payload ∪ old).
  split; [done|]. cbn [announcements_collection teachers_collection].
  split_and!; try done.
  - by rewrite lookup_insert_eq.
  - intros k Hk. unfold payload_fields in Hk.
    repeat (apply elem_of_cons in Hk as [->|Hk]);
      [by rewrite (lookup_union_Some_l _ old _ _ Hlt), Hlt
      |by rewrite (lookup_union_Some_l _ old _ _ Hlm), Hlm
      |by rewrite (lookup_union_Some_l _ old _ _ Hls), Hls
      |by rewrite (lookup_union_Some_l _ old _ _ Hle), Hle
      |by apply elem_of_nil in Hk].
  - intros k Hk. unfold payload_fields in Hk. apply lookup_union_r.
    unfold _serialize_payload.
    rewrite !lookup_insert_ne, lookup_singleton_ne; [done|..];
      intros <-; apply Hk; repeat constructor.
  - intros j Hj. by rewrite lookup_insert_ne.
  - apply dom_insert_lookup_L. by eexists.
Qed.

Lemma X7_witness :
  ∃ r st' new,
    update_announcement Sample.today "0102030405060708090a0b0c" Sample.exam
      (Some "alice"%string) Sample.three = (Ok r, st')
    ∧ announcements_collection st' !! Sample.id2 = Some new
    ∧ (∀ k, k ∈ payload_fields → new !! k = _serialize_payload Sample.exam !! k)
    ∧ (∀ k, k ∉ payload_fields → new !! k = _serialize_payload Sample.expired !! k)
    ∧ (∀ j, j ≠ Sample.id2 →
         announcements_collection st' !! j = announcements_collection Sample.three !! j)
    ∧ dom (announcements_collection st') = dom (announcements_collection Sample.three)
    ∧ teachers_collection st' = teachers_collection Sample.three
    ∧ resp_id r = hexlify (binary Sample.id2)
    ∧ resp_title r = strip (title Sample.exam)
    ∧ resp_message r = strip (message Sample.exam).
Proof.
  apply (X7_update_sets_payload_fields Sample.today "0102030405060708090a0b0c" Sample.exam
           "alice" ∅ Sample.three Sample.id2 (_serialize_payload Sample.expired)).
  - discriminate.
  - vm_compute. reflexivity.
  - vm_compute. reflexivity.
  - vm_compute. reflexivity.
Defined.

Lemma update_twice `{dp : DateParser} today announcement_id payload username st :
  update_announcement today announcement_id payload username
    (update_announcement today announcement_id payload username st).2
  = update_announcement today announcement_id payload username st.
Proof.
  destruct (require_teacher_cases username st)
    as [(u & t & -> & Hu & Ht & Hreq)|(detail & Hreq & _)].
  - rewrite (update_eval today announcement_id payload u t st Hu Ht).
    destruct (ObjectId announcement_id) as [i|] eqn:Hid.
    + destruct (announcements_collection st !! i) as [old|] eqn:Hi.
      * cbn [snd].
        rewrite (update_eval today announcement_id payload u t
                   (mkdb (teachers_collection st)
                      (<[i := _serialize_payload payload ∪ old]>
                         (announcements_collection st))) Hu Ht), Hid.
        cbn [announcements_collection teachers_collection].
        rewrite lookup_insert_eq, (assoc_L (∪)), (idemp_L (∪)), insert_insert_eq. done.
      * cbn [snd]. by rewrite (update_eval today announcement_id payload u t st Hu Ht), Hid, Hi.
    + cbn [snd]. by rewrite (update_eval today announcement_id payload u t st Hu Ht), Hid.
  - assert (update_announcement today announcement_id payload username st
            = (Raise (HTTPException 401 detail), st)) as Hupd.
    { unfold update_announcement. by rewrite (bind_raise _ _ _ _ _ Hreq). }
    rewrite Hupd. cbn [snd]. exact Hupd.
Qed.

(** X8: update is idempotent: sending the same update a second time
    gives the same answer and leaves the store as the first one left it. *)
Theorem X8_update_twice_is_update_once `{dp : DateParser}
    today announcement_id body username st :
  put_route today announcement_id body username
    (put_route today announcement_id body username st).2
  = put_route today announcement_id body username st.
Proof.
  assert (∀ st0, put_route today announcement_id body username st0
                 = match AnnouncementPayload_validate body with
                   | Ok payload => update_announcement today announcement_id payload username st0
                   | Raise e => (Raise e, st0)
                   end) as Hput.
  { intros st0. unfold put_route, lift, mbind, M_bind.
    by destruct (AnnouncementPayload_validate body). }
  rewrite !Hput. destruct (AnnouncementPayload_validate body) as [payload|e]; [|done].
  apply update_twice.
Qed.

(** X9: a delete by a known teacher of an identifier that names a
    document removes that document and nothing else, and answers with the
    message "Announcement deleted". *)
Theorem X9_delete_removes_one_document announcement_id u t st i old :
  u ≠ EmptyString → teachers_collection st !! u = Some t →
  ObjectId announcement_id = Some i → announcements_collection st !! i = Some old →
  ∃ st',
    delete_announcement announcement_id (Some u) st
    = (Ok {[ "message"%string := "Announcement deleted"%string ]}, st')
    ∧ announcements_collection st' !! i = None
    ∧ (∀ j, j ≠ i → announcements_collection st' !! j = announcements_collection st !! j)
    ∧ size (announcements_collection st) = S (size (announcements_collection st'))
    ∧ teachers_collection st' = teachers_collection st.
Proof.
  intros Hu Ht Hid Hi. rewrite (delete_eval announcement_id u t st Hu Ht), Hid, Hi.
  eexists. split; [done|]. cbn [announcements_collection teachers_collection].
  split_and!; try done.
  - by rewrite lookup_delete_eq.
  - intros j Hj. by rewrite lookup_delete_ne.
  - rewrite map_size_delete, Hi.
    assert (size (announcements_collection st) ≠ 0%nat); [|lia].
    intros Hz. apply map_size_empty_inv in Hz. by rewrite Hz, lookup_empty in Hi.
Qed.

Lemma X9_witness :
  ∃ st',
    delete_announcement "0102030405060708090a0b0c" (Some "alice"%string) Sample.three
    = (Ok {[ "message"%string := "Announcement deleted"%string ]}, st')
    ∧ announcements_collection st' !! Sample.id2 = None
    ∧ (∀ j, j ≠ Sample.id2 →
         announcements_collection st' !! j = announcements_collection Sample.three !! j)
    ∧ size (announcements_collection Sample.three) = S (size (announcements_collection st'))
    ∧ teachers_collection st' = teachers_collection Sample.three.
Proof.
  apply (X9_delete_removes_one_document "0102030405060708090a0b0c" "alice" ∅ Sample.three
           Sample.id2 (_serialize_payload Sample.expired)).
  - discriminate.
  - vm_compute. reflexivity.
  - vm_compute. reflexivity.
  - vm_compute. reflexivity.
Defined.

(** X11: no endpoint writes the teacher directory, and list writes
    nothing at all, also when it fails. *)
Theorem X11_teachers_are_never_written `{dp : DateParser}
    today new_id announcement_id body username include_expired include_future st :
  (list_announcements today include_expired include_future st).2 = st
  ∧ teachers_collection (post_route today new_id body username st).2
    = teachers_collection st
  ∧ teachers_collection (put_route today announcement_id body username st).2
    = teachers_collection st
  ∧ teachers_collection (delete_announcement announcement_id username st).2
    = teachers_collection st.
Proof.
  split_and!.
  - done.
  - by destruct (post_route_cases today new_id body username st) as [(e & ->)|(r & -> & _)].
  - by destruct (put_route_cases today announcement_id body username st)
      as [(e & ->)|(r & i & old & _ & _ & _ & ->)].
  - by destruct (delete_cases announcement_id username st) as [(e & ->)|(i & old & _ & _ & ->)].
Qed.

(** ** Identifiers round-trip through their text *)

Lemma hex_char_val n :
  0 <= n < 16 → is_ascii_space (hex_char n) = false ∧ hex_val (hex_char n) = Some n.
Proof.
  intros Hn.
  assert (n = 0 ∨ n = 1 ∨ n = 2 ∨ n = 3 ∨ n = 4 ∨ n = 5 ∨ n = 6 ∨ n = 7 ∨ n = 8 ∨ n = 9
          ∨ n = 10 ∨ n = 11 ∨ n = 12 ∨ n = 13 ∨ n = 14 ∨ n = 15) as H by lia.
  repeat (destruct H as [->|H]; [by vm_compute|]). subst. by vm_compute.
Qed.

Lemma fromhex_hexlify bs :
  forallb (λ b, (0 <=? b) && (b <? 256)) bs = true → fromhex (hexlify bs) = Some bs.
Proof.
  induction bs as [|b bs IH]; [done|]. cbn [forallb]. intros H.
  apply andb_true_iff in H as [Hb Hbs]. apply andb_true_iff in Hb as [Hlo Hhi].
  assert (0 <= b / 16 < 16) as Hq.
  { split; [apply Z.div_pos; lia | apply Z.div_lt_upper_bound; lia]. }
  pose proof (Z.mod_pos_bound b 16 ltac:(lia)) as Hr.
  destruct (hex_char_val _ Hq) as [Hs1 Hv1]. destruct (hex_char_val _ Hr) as [_ Hv2].
  cbn [hexlify fromhex]. rewrite Hs1, Hv1, Hv2, (IH Hbs). cbn [fmap option_fmap option_map].
  do 2 f_equal. pose proof (Z.div_mod b 16 ltac:(lia)). lia.
Qed.

Lemma length_hexlify bs : String.length (hexlify bs) = (2 * length bs)%nat.
Proof. induction bs as [|b bs IH]; [done|]. cbn [hexlify String.length length]. lia. Qed.

Lemma ObjectId_str o : oid_ok o = true → ObjectId (str (VOid o)) = Some o.
Proof.
  unfold oid_ok, ObjectId. cbn [str]. intros H. apply andb_true_iff in H as [Hlen Hbytes].
  apply Nat.eqb_eq in Hlen. rewrite length_hexlify, Hlen. cbn [Nat.mul Nat.add Nat.eqb].
  rewrite (fromhex_hexlify _ Hbytes). by destruct o.
Qed.

(** X10: the identifier in the response of a create is an identifier the
    router accepts back: deleting the announcement under it succeeds and
    leaves the store exactly as it was before the create. *)
Theorem X10_create_then_delete_restores `{dp : DateParser} today new_id payload u t st :
  oid_ok new_id = true → u ≠ EmptyString → teachers_collection st !! u = Some t →
  announcements_collection st !! new_id = None →
  ∃ r st',
    create_announcement today new_id payload (Some u) st = (Ok r, st')
    ∧ ObjectId (resp_id r) = Some new_id
    ∧ delete_announcement (resp_id r) (Some u) st'
      = (Ok {[ "message"%string := "Announcement deleted"%string ]}, st).
Proof.
  intros Hok Hu Ht Hfresh. rewrite (create_eval today new_id payload u t st Hu Ht Hfresh).
  destruct (doc_to_response_serialized_ok today new_id payload ∅) as (r & Hr & Hid & _).
  rewrite map_union_empty in Hr. rewrite Hr.
  assert (ObjectId (resp_id r) = Some new_id) as Hback.
  { rewrite Hid. by apply (ObjectId_str new_id). }
  eexists _, _. split; [done|]. split; [done|].
  rewrite (delete_eval (resp_id r) u t
             (mkdb (teachers_collection st)
                (<[new_id := _serialize_payload payload]> (announcements_collection st)))
             Hu Ht), Hback.
  cbn [announcements_collection teachers_collection].
  rewrite lookup_insert_eq, delete_insert_eq, (delete_id _ _ Hfresh). by destruct st.
Qed.

Lemma X10_witness :
  ∃ r st',
    create_announcement Sample.today Sample.id3 Sample.upcoming (Some "alice"%string)
      Sample.empty_db = (Ok r, st')
    ∧ ObjectId (resp_id r) = Some Sample.id3
    ∧ delete_announcement (resp_id r) (Some "alice"%string) st'
      = (Ok {[ "message"%string := "Announcement deleted"%string ]}, Sample.empty_db).
Proof.
  apply (X10_create_then_delete_restores Sample.today Sample.id3 Sample.upcoming "alice" ∅
           Sample.empty_db).
  - reflexivity.
  - discriminate.
  - vm_compute. reflexivity.
  - vm_compute. reflexivity.
Defined.

(** ** The order of the listing *)

Lemma bytes_compare_antisym a b : bytes_compare a b = CompOpp (bytes_compare b a).
Proof.
  revert b. induction a as [|x a IH]; intros [|y b]; try done.
  cbn [bytes_compare]. rewrite (Z.compare_antisym y x).
  destruct (y ?= x); cbn [CompOpp]; [apply IH|done|done].
Qed.

Lemma bson_leb_total a b : bson_leb a b = true ∨ bson_leb b a = true.
Proof.
  destruct a as [| s | o], b as [| s' | o']; unfold bson_leb; cbn [bson_compare bson_rank];
    try (by left); try (by right).
  - rewrite (String.compare_antisym s s'). destruct (String.compare s' s); cbn; auto.
  - rewrite (bytes_compare_antisym (binary o) (binary o')).
    destruct (bytes_compare (binary o') (binary o)); cbn; auto.
Qed.

Lemma date_leb_spec a b :
  date_leb a b = true
  ↔ year a < year b
    ∨ (year a = year b ∧ (month a < month b ∨ (month a = month b ∧ day a <= day b))).
Proof.
  unfold date_leb, date_compare.
  destruct (Z.compare_spec (year a) (year b)), (Z.compare_spec (month a) (month b)),
    (Z.compare_spec (day a) (day b)); split; intros Hyp; try done; try lia.
Qed.

Lemma by_end_date_trans a b c : by_end_date a b → by_end_date b c → by_end_date a c.
Proof. unfold by_end_date. rewrite !date_leb_spec. lia. Qed.

Lemma mapM_outcome_fmap {A B} (f : A → outcome B) (g : A → B) (l : list A) :
  (∀ x, x ∈ l → f x = Ok (g x)) → mapM f l = Ok (g <$> l).
Proof.
  induction l as [|x l IH]; intros Hall; [done|].
  change (mapM f (x :: l)) with (f x ≫= λ y', mapM f l ≫= λ k', mret (y' :: k')).
  rewrite (Hall x) by (by left). rewrite IH by (intros z Hz; apply Hall; by right). done.
Qed.

Lemma Sorted_fmap_on {A B} (R : relation A) (R' : relation B) (g : A → B)
    (P : A → Prop) (l : list A) :
  (∀ x y, P x → P y → R x y → R' (g x) (g y)) →
  Forall P l → Sorted R l → Sorted R' (g <$> l).
Proof.
  intros HR HP HS. induction HS as [|x l HS IH Hhd]; [constructor|].
  apply Forall_cons in HP as [Hx HP]. cbn [fmap list_fmap]. constructor; [by apply IH|].
  destruct Hhd as [|y l' Hxy]; [constructor|]. constructor.
  apply Forall_cons in HP as [Hy _]. by apply HR.
Qed.

(** X12: the listing is in ascending order of end_date, for every
    combination of the two flags: each returned announcement ends on or
    before every announcement returned after it. *)
Theorem X12_listing_is_ordered_by_end_date `{dp : DateParser}
    today include_expired include_future st :
  reads_back → all_stored is_announcement st = true →
  ∃ rs, list_announcements today include_expired include_future st = (Ok rs, st)
    ∧ StronglySorted (λ a b, date_leb (resp_end_date a) (resp_end_date b) = true) rs.
Proof.
  intros Hrb Hst. pose proof (proj1 (all_stored_spec _ _) Hst) as Hann.
  set (q := list_query (isoformat today) include_expired include_future).
  set (R := λ d1 d2 : document,
              Is_true (bson_leb (get d1 "end_date") (get d2 "end_date"))).
  set (cursor := sort_by "end_date" (filter (λ d, Is_true (matches q d)) (all_documents st))).
  set (g := λ doc : document,
              mkResponse (str (get doc "_id")) (text_of (doc !! "title"))
                (text_of (doc !! "message")) (read_date (doc !! "start_date"))
                (default today (read_date (doc !! "end_date")))).
  set (P := λ d : document,
              ∃ i fields, d = with_id (VOid i) fields ∧ is_announcement fields = true).
  assert (Forall P cursor) as Hall.
  { apply Forall_forall. intros d Hd. unfold cursor in Hd.
    rewrite elem_of_sort_by, list_elem_of_filter, elem_of_all_documents in Hd.
    destruct Hd as (_ & i & fields & Hi & ->). exists i, fields. split; [done|by apply (Hann i)]. }
  assert (mapM (_doc_to_response today) cursor = Ok (g <$> cursor)) as Hmap.
  { apply mapM_outcome_fmap. intros d Hd.
    destruct (proj1 (Forall_forall _ _) Hall d Hd) as (i & fields & -> & Hf).
    apply doc_to_response_well_typed. rewrite well_typed_with_id.
    by apply is_announcement_well_typed. }
  exists (g <$> cursor). split.
  - unfold list_announcements, find_sorted, lift, mbind, M_bind. fold q. fold cursor.
    by rewrite Hmap.
  - apply Sorted_StronglySorted; [intros a b c; apply by_end_date_trans|].
    apply (Sorted_fmap_on R _ g P cursor); [|done|].
    + intros x y (i & f & -> & Hf) (j & f' & -> & Hf') Hxy.
      destruct (is_announcement_ends_on f Hf) as (e & He & Hend).
      destruct (is_announcement_ends_on f' Hf') as (e' & He' & Hend').
      unfold R, get in Hxy. rewrite !lookup_with_id, Hend, Hend' in Hxy by done.
      unfold g. cbn [resp_end_date]. rewrite !lookup_with_id, Hend, Hend' by done.
      rewrite !read_date_iso by done. cbn [default from_option id] in *.
      unfold bson_leb in Hxy. cbn [bson_compare] in Hxy.
      rewrite (isoformat_compare e e' He He') in Hxy. unfold date_leb.
      by destruct (date_compare e e').
    + unfold cursor, sort_by. fold R.
      assert (Total R) as Htotal.
      { intros x y. unfold R.
        destruct (bson_leb_total (get x "end_date") (get y "end_date")) as [->| ->]; auto. }
      apply Sorted_merge_sort. exact Htotal.
Qed.

Lemma X12_witness :
  ∃ rs, list_announcements Sample.today true false Sample.three = (Ok rs, Sample.three)
    ∧ StronglySorted (λ a b, date_leb (resp_end_date a) (resp_end_date b) = true) rs.
Proof.
  apply (X12_listing_is_ordered_by_end_date Sample.today true false Sample.three);
    [exact strict_reads_back | vm_compute; reflexivity].
Defined.

(** ** Documents that do not have the stored types *)

Lemma mapM_outcome_raise {A B} (f : A → outcome B) (l : list A) x e :
  x ∈ l → f x = Raise e → ∃ y e', y ∈ l ∧ f y = Raise e' ∧ mapM f l = Raise e'.
Proof.
  induction l as [|z l IH]; intros Hx Hfx; [by apply elem_of_nil in Hx|].
  change (mapM f (z :: l)) with (f z ≫= λ y', mapM f l ≫= λ k', mret (y' :: k')).
  destruct (f z) as [b|e0] eqn:Hfz.
  - apply elem_of_cons in Hx as [->|Hx]; [congruence|].
    destruct (IH Hx Hfx) as (y & e' & Hy & Hfy & Hm).
    exists y, e'. split; [by right|]. split; [done|]. by rewrite Hm.
  - exists z, e0. split; [by left|]. by split.
Qed.

(** The only exceptions of the conversion. *)
Lemma doc_to_response_raises `{dp : DateParser} today doc e :
  _doc_to_response today doc = Raise e → e = TypeError ∨ e = ValidationError.
Proof.
  unfold _doc_to_response, _parse_optional_date, str_field, get, get_or.
  destruct (doc !! "start_date") as [[| s1 |]|]; cbn; auto;
    destruct (doc !! "end_date") as [[| s2 |]|]; cbn; auto;
    destruct (doc !! "title") as [[| s3 |]|]; cbn; auto;
    destruct (doc !! "message") as [[| s4 |]|]; cbn; auto;
    repeat case_bool_decide; cbn; intros [= <-]; auto.
Qed.




(** X14: with include_expired=true nothing is filtered, so one stored
    document with an ObjectId (a value that is neither text nor null) under
    end_date or start_date makes the whole listing fail: the exception is
    not caught and the answer is 500. *)
Theorem X14_odd_date_fails_full_listing `{dp : DateParser}
    today include_future st i fields o :
  announcements_collection st !! i = Some fields →
  fields !! "end_date"%string = Some (VOid o)
  ∨ fields !! "start_date"%string = Some (VOid o) →
  ∃ e, list_announcements today true include_future st = (Raise e, st)
    ∧ (e = TypeError ∨ e = ValidationError)
    ∧ http_status (list_announcements today true include_future st).1 = 500.
Proof.
  intros Hi Hodd.
  set (cursor := sort_by "end_date"
                   (filter (λ d, Is_true (matches (Q_and []) d)) (all_documents st))).
  assert (with_id (VOid i) fields ∈ cursor) as Hin.
  { unfold cursor. rewrite elem_of_sort_by, list_elem_of_filter, elem_of_all_documents.
    split; [done|]. by exists i, fields. }
  assert (_doc_to_response today (with_id (VOid i) fields) = Raise TypeError) as Hbad.
  { unfold _doc_to_response, get.
    rewrite (lookup_with_id _ _ "start_date"), (lookup_with_id _ _ "end_date") by done.
    destruct Hodd as [Hend|Hstart].
    - rewrite Hend. by destruct (fields !! "start_date") as [[| s |]|]; cbn;
        repeat case_bool_decide.
    - by rewrite Hstart. }
  destruct (mapM_outcome_raise _ _ _ _ Hin Hbad) as (y & e & _ & Hy & Hm).
  apply doc_to_response_raises in Hy.
  assert (list_announcements today true include_future st = (Raise e, st)) as Hlist.
  { unfold list_announcements, find_sorted, lift, mbind, M_bind.
    change (list_query (isoformat today) true include_future) with (Q_and []).
    fold cursor. by rewrite Hm. }
  exists e. rewrite Hlist. split; [done|]. split; [done|]. by destruct Hy as [-> | ->].
Qed.

Lemma X14_witness :
  ∃ e, list_announcements Sample.today true false Sample.odd = (Raise e, Sample.odd)
    ∧ (e = TypeError ∨ e = ValidationError)
    ∧ http_status (list_announcements Sample.today true false Sample.odd).1 = 500.
Proof.
  apply (X14_odd_date_fails_full_listing Sample.today false Sample.odd Sample.id1
           {[ "title"%string := VStr "Exam"; "end_date"%string := VOid Sample.id2 ]}
           Sample.id2).
  - vm_compute. reflexivity.
  - left. vm_compute. reflexivity.
Defined.

(** ** A write, then the listing *)

Lemma all_stored_insert P st i doc :
  all_stored P st = true → P doc = true →
  all_stored P (mkdb (teachers_collection st) (<[i := doc]> (announcements_collection st)))
  = true.
Proof.
  rewrite !all_stored_spec. intros Hst Hdoc j fields. cbn [announcements_collection].
  rewrite lookup_insert. case_decide; [by intros [= <-] | apply Hst].
Qed.

(** X15: a created announcement is in the next full listing, which is one
    entry longer than the collection was. *)
Theorem X15_created_announcement_is_listed `{dp : DateParser} today new_id payload u t st :
  all_stored well_typed st = true →
  u ≠ EmptyString → teachers_collection st !! u = Some t →
  announcements_collection st !! new_id = None →
  ∃ r st' rs,
    create_announcement today new_id payload (Some u) st = (Ok r, st')
    ∧ list_announcements today true false st' = (Ok rs, st')
    ∧ r ∈ rs
    ∧ length rs = S (size (announcements_collection st)).
Proof.
  intros Hst Hu Ht Hfresh. rewrite (create_eval today new_id payload u t st Hu Ht Hfresh).
  destruct (doc_to_response_serialized_ok today new_id payload ∅) as (r & Hr & _).
  pose proof (serialized_well_typed payload ∅) as Hwt.
  rewrite map_union_empty in Hr, Hwt. rewrite Hr.
  set (st' := mkdb (teachers_collection st)
                (<[new_id := _serialize_payload payload]> (announcements_collection st))).
  destruct (list_announcements_spec today true false st')
    as (rs & Hrs & Hmem); [by apply all_stored_insert|].
  exists r, st', rs. split; [done|]. split; [done|]. split.
  - apply Hmem. exists new_id, (_serialize_payload payload).
    split; [apply lookup_insert_eq|]. by split.
  - rewrite (list_all_length today false st' rs Hrs). unfold st'.
    cbn [announcements_collection]. by rewrite map_size_insert_None.
Qed.

Lemma X15_witness :
  ∃ r st' rs,
    create_announcement Sample.today Sample.id1 Sample.exam (Some "alice"%string)
      Sample.empty_db = (Ok r, st')
    ∧ list_announcements Sample.today true false st' = (Ok rs, st')
    ∧ r ∈ rs
    ∧ length rs = S (size (announcements_collection Sample.empty_db)).
Proof.
  apply (X15_created_announcement_is_listed Sample.today Sample.id1 Sample.exam "alice" ∅
           Sample.empty_db).
  - vm_compute. reflexivity.
  - discriminate.
  - vm_compute. reflexivity.
  - vm_compute. reflexivity.
Defined.

(** X16: after an update the next full listing holds the updated
    announcement and is as long as the collection was: the update replaced
    an entry, it did not add one. *)
Theorem X16_updated_announcement_is_listed `{dp : DateParser}
    today announcement_id payload u t st i old :
  all_stored well_typed st = true →
  u ≠ EmptyString → teachers_collection st !! u = Some t →
  ObjectId announcement_id = Some i → announcements_collection st !! i = Some old →
  ∃ r st' rs,
    update_announcement today announcement_id payload (Some u) st = (Ok r, st')
    ∧ resp_title r = strip (title payload)
    ∧ list_announcements today true false st' = (Ok rs, st')
    ∧ r ∈ rs
    ∧ length rs = size (announcements_collection st).
Proof.
  intros Hst Hu Ht Hid Hi.
  rewrite (update_eval today announcement_id payload u t st Hu Ht), Hid, Hi.
  destruct (doc_to_response_serialized_ok today i payload old) as (r & Hr & _ & Htitle & _).
  rewrite Hr.
  set (st' := mkdb (teachers_collection st)
                (<[i := _serialize_payload payload ∪ old]> (announcements_collection st))).
  destruct (list_announcements_spec today true false st')
    as (rs & Hrs & Hmem); [apply all_stored_insert; [done|apply serialized_well_typed]|].
  exists r, st', rs. split; [done|]. split; [done|]. split; [done|]. split.
  - apply Hmem. exists i, (_serialize_payload payload ∪ old).
    split; [apply lookup_insert_eq|]. by split.
  - rewrite (list_all_length today false st' rs Hrs). unfold st'.
    cbn [announcements_collection]. rewrite map_size_insert_Some; [done|by eexists].
Qed.

Lemma X16_witness :
  ∃ r st' rs,
    update_announcement Sample.today "0102030405060708090a0bff"
      (mkPayload "Final Exam" "Midterm Friday" None (mkdate 2099 1 1))
      (Some "alice"%string) Sample.three = (Ok r, st')
    ∧ resp_title r
      = strip (title (mkPayload "Final Exam" "Midterm Friday" None (mkdate 2099 1 1)))
    ∧ list_announcements Sample.today true false st' = (Ok rs, st')
    ∧ r ∈ rs
    ∧ length rs = size (announcements_collection Sample.three).
Proof.
  apply (X16_updated_announcement_is_listed Sample.today "0102030405060708090a0bff"
           (mkPayload "Final Exam" "Midterm Friday" None (mkdate 2099 1 1))
           "alice" ∅ Sample.three Sample.id1 (_serialize_payload Sample.exam)).
  - vm_compute. reflexivity.
  - discriminate.
  - vm_compute. reflexivity.
  - vm_compute. reflexivity.
  - vm_compute. reflexivity.
Defined.
